(** * ThingsBoard installer: a shallow embedding of
      [docker/thingsboard_installer.py] and the properties of its
      provisioning pipeline.

    The script is a sequence of effects on the host: it reads lines from
    standard input, writes log records, runs shell commands, renames and
    writes one file, and talks to a mail server.  Each Python function is
    a computation in a small monad [M] over an explicit [World]; the parts
    of the host the script only observes (what a shell command answers,
    what the mail server answers, memory, disk, the login name) are read
    from an [Env].

    Modelling conventions, fixed here once:
    - Python [str] is [string]; [str.lower] acts on the letters A-Z.
    - The file system maps a path to the text of the regular file there
      (the script touches two relative paths, both regular files).
      [os.rename] is the POSIX one: it replaces the destination.
    - Python [bytes] are [string] as well (a Rocq string is a sequence of
      bytes); [bytes.decode] is the strict UTF-8 decoder [decode].
    - A shell command is opaque: its exit status and the bytes of its
      captured stderr come from [shell], which sees the commands run
      before it.  [fs] holds the files as the script's own operations
      leave them: what a command does to the files of the host, and
      whether it reads the script's standard input, is not modelled.
    - What [termcolor.colored] returns depends on the terminal and is
      read from the environment.
    - [exit(1)] raises SystemExit, which nothing in the script catches:
      it is the outcome [Exited].  Other exceptions are [Raised].
    - [create_thingsboard_user], which nothing calls, reads the terminal
      through [getpass] and is left out. *)

From Stdlib Require Import ZArith NArith Ascii String.
From stdpp Require Import base strings list gmap pretty.

Local Open Scope Z_scope.

(** ** The host *)

Inductive level := INFO | WARNING | ERROR.

(** What [subprocess.run] hands back: [CompletedProcess.returncode] and the
    captured standard error. *)
Record CommandResult := { returncode : Z; stderr : string }.

(** The calls the script makes on an [smtplib.SMTP] session. *)
Inductive SmtpCall :=
| SMTP_connect (host : string) (port : Z)
| SMTP_starttls
| SMTP_login (user password : string)
| SMTP_sendmail (from_addr : string) (to_addrs : list string) (msg : string)
| SMTP_quit.

Inductive exn :=
| EOFError
| FileNotFoundError (path : string)
| SMTPException (text : string)
| UnicodeDecodeError (object : string).

(** [str(e)], as the f-string in [send_notification] renders it.  (The
    only exceptions raised inside its [try] are those of the mail session;
    the text given for the others is never formatted.) *)
Definition str_exn (e : exn) : string :=
  match e with
  | EOFError => ""
  | FileNotFoundError p => "[Errno 2] No such file or directory: '" +:+ p +:+ "'"
  | SMTPException t => t
  | UnicodeDecodeError _ => "'utf-8' codec can't decode bytes"
  end.

Record Env := {
  shell : list string → string → CommandResult;
  smtp : SmtpCall → option string;
  virtual_memory_total : N;
  disk_usage_free : N;
  getuser : string;
  termcolor : string → string → list string → string
}.

Record World := {
  fs : gmap string string;
  stdin : list string;
  stdout : list string;
  log : list (level * string);
  cmds : list string;
  outbox : list (string * list string * string)
}.

Definition set_fs (f : gmap string string) (w : World) : World :=
  {| fs := f; stdin := stdin w; stdout := stdout w; log := log w;
     cmds := cmds w; outbox := outbox w |}.
Definition set_stdin (i : list string) (w : World) : World :=
  {| fs := fs w; stdin := i; stdout := stdout w; log := log w;
     cmds := cmds w; outbox := outbox w |}.
Definition set_stdout (o : list string) (w : World) : World :=
  {| fs := fs w; stdin := stdin w; stdout := o; log := log w;
     cmds := cmds w; outbox := outbox w |}.
Definition set_log (l : list (level * string)) (w : World) : World :=
  {| fs := fs w; stdin := stdin w; stdout := stdout w; log := l;
     cmds := cmds w; outbox := outbox w |}.
Definition set_cmds (c : list string) (w : World) : World :=
  {| fs := fs w; stdin := stdin w; stdout := stdout w; log := log w;
     cmds := c; outbox := outbox w |}.
Definition set_outbox (o : list (string * list string * string)) (w : World) : World :=
  {| fs := fs w; stdin := stdin w; stdout := stdout w; log := log w;
     cmds := cmds w; outbox := o |}.

(** ** The monad of the script *)

Inductive outcome (A : Type) :=
| Returned (a : A) (w : World)
| Exited (code : Z) (w : World)
| Raised (e : exn) (w : World).
Arguments Returned {A} a w.
Arguments Exited {A} code w.
Arguments Raised {A} e w.

Definition M (A : Type) : Type := World → outcome A.

#[global] Instance M_ret : MRet M := λ A a w, Returned a w.
#[global] Instance M_bind : MBind M := λ A B k m w,
  match m w with
  | Returned a w' => k a w'
  | Exited c w' => Exited c w'
  | Raised e w' => Raised e w'
  end.

(** [try: body except Exception as e: handler(e)].  SystemExit derives from
    BaseException, so an [Exited] outcome passes through. *)
Definition try_except {A} (body : M A) (handler : exn → M A) : M A := λ w,
  match body w with
  | Raised e w' => handler e w'
  | r => r
  end.

(** The world an outcome leaves behind. *)
Definition world_of {A} (r : outcome A) : World :=
  match r with
  | Returned _ w | Exited _ w | Raised _ w => w
  end.

Definition returned {A} (r : outcome A) : bool :=
  match r with Returned _ _ => true | _ => false end.

(** ** Primitive effects *)

Definition logger (l : level) (msg : string) : M unit := λ w,
  Returned tt (set_log (log w ++ [(l, msg)]) w).
Definition logger_info := logger INFO.
Definition logger_warning := logger WARNING.
Definition logger_error := logger ERROR.

Definition print (text : string) : M unit := λ w,
  Returned tt (set_stdout (stdout w ++ [text]) w).

(** [input(prompt)]: writes the prompt, then takes the next line of
    standard input; at end of input it raises EOFError. *)
Definition input (prompt : string) : M string := λ w,
  let w' := set_stdout (stdout w ++ [prompt]) w in
  match stdin w with
  | [] => Raised EOFError w'
  | l :: ls => Returned l (set_stdin ls w')
  end.

Definition exit {A} (code : Z) : M A := λ w, Exited code w.

Definition raise {A} (e : exn) : M A := λ w, Raised e w.

Definition os_path_exists (path : string) : M bool := λ w,
  Returned (bool_decide (is_Some (fs w !! path))) w.

Definition os_rename (src dst : string) : M unit := λ w,
  match fs w !! src with
  | Some content => Returned tt (set_fs (<[dst := content]> (delete src (fs w))) w)
  | None => Raised (FileNotFoundError src) w
  end.

(** [with open(path, "w") as f: f.write(content)] *)
Definition write_file (path content : string) : M unit := λ w,
  Returned tt (set_fs (<[path := content]> (fs w)) w).

(** ** Text *)

Definition nl : string := String "010"%char "".
Definition dq : string := String "034"%char "".

(** A message of the [email] package: headers in the order they were set,
    and the body.  [MIMEText] of plain ASCII text sets three headers. *)
Record Message := { headers : list (string * string); payload : string }.

Definition MIMEText (text : string) : Message :=
  {| headers := [("Content-Type", "text/plain; charset=" +:+ dq +:+ "us-ascii" +:+ dq);
                 ("MIME-Version", "1.0");
                 ("Content-Transfer-Encoding", "7bit")];
     payload := text |}.

(** [msg[name] = value] appends a header. *)
Definition set_header (name value : string) (m : Message) : Message :=
  {| headers := headers m ++ [(name, value)]; payload := payload m |}.

(** [msg[name]]: the value of the first header of that name (Python gives
    None when there is none, the empty text here; the script reads only
    headers it has just set, under the same spelling). *)
Fixpoint lookup_header (name : string) (hs : list (string * string)) : string :=
  match hs with
  | [] => ""
  | (n, v) :: hs' => if decide (n = name) then v else lookup_header name hs'
  end.
Definition get_header (name : string) (m : Message) : string :=
  lookup_header name (headers m).

(** [msg.as_string()], for a message whose header values are printable
    ASCII on lines short enough not to be folded, as are the three fixed
    headers of the script and a recipient that is a [plain_address]: each
    header on a line of its own, an empty line, the body. *)
Definition as_string (m : Message) : string :=
  foldr (λ h acc, fst h +:+ ": " +:+ snd h +:+ nl +:+ acc) (nl +:+ payload m) (headers m).

(** *** Decoding captured bytes

    [bytes.decode()] is the strict UTF-8 decoder: one byte below 0x80; a
    lead byte 0xC2-0xDF, 0xE0-0xEF or 0xF0-0xF4 followed by one, two or
    three continuation bytes, without overlong forms, surrogates or code
    points above U+10FFFF.  Text are the same bytes. *)

Definition continuation (b : N) : bool := ((128 <=? b) && (b <=? 191))%N.

Fixpoint utf8_valid (s : string) : bool :=
  match s with
  | EmptyString => true
  | String c1 t1 =>
      let b1 := N_of_ascii c1 in
      if (b1 <? 128)%N then utf8_valid t1
      else if ((194 <=? b1) && (b1 <=? 223))%N then
        match t1 with
        | String c2 t2 => continuation (N_of_ascii c2) && utf8_valid t2
        | _ => false
        end
      else if ((224 <=? b1) && (b1 <=? 239))%N then
        match t1 with
        | String c2 (String c3 t3) =>
            let b2 := N_of_ascii c2 in
            (if (b1 =? 224)%N then ((160 <=? b2) && (b2 <=? 191))%N
             else if (b1 =? 237)%N then ((128 <=? b2) && (b2 <=? 159))%N
             else continuation b2) &&
            continuation (N_of_ascii c3) && utf8_valid t3
        | _ => false
        end
      else if ((240 <=? b1) && (b1 <=? 244))%N then
        match t1 with
        | String c2 (String c3 (String c4 t4)) =>
            let b2 := N_of_ascii c2 in
            (if (b1 =? 240)%N then ((144 <=? b2) && (b2 <=? 191))%N
             else if (b1 =? 244)%N then ((128 <=? b2) && (b2 <=? 143))%N
             else continuation b2) &&
            continuation (N_of_ascii c3) && continuation (N_of_ascii c4) &&
            utf8_valid t4
        | _ => false
        end
      else false
  end.

(** [None] is UnicodeDecodeError. *)
Definition decode (bytes : string) : option string :=
  if utf8_valid bytes then Some bytes else None.

Section Installer.

Variable env : Env.

(** [termcolor.colored(text, color, attrs=attrs)]. *)
Definition colored (text color : string) (attrs : list string) : string :=
  termcolor env text color attrs.

(** [subprocess.run(command, shell=True, ...)] without [check]: the command
    runs, whatever its status.  The world records that it was issued; what
    it does on the host is outside the model. *)
Definition subprocess_run (command : string) : M CommandResult := λ w,
  Returned (shell env (cmds w) command) (set_cmds (cmds w ++ [command]) w).

(** One call on the mail session; a refusal is an exception. *)
Definition smtp_call (c : SmtpCall) : M unit := λ w,
  match smtp env c with
  | Some text => Raised (SMTPException text) w
  | None =>
      match c with
      | SMTP_sendmail f t m => Returned tt (set_outbox (outbox w ++ [(f, t, m)]) w)
      | _ => Returned tt w
      end
  end.

(** ** The script, function by function *)

Definition run_command (command description : string) : M unit :=
  logger_info description;;
  r ← subprocess_run command;
  if decide (returncode r = 0) then mret tt
  else
    logger_error ("Failed to execute: " +:+ command);;
    match decode (stderr r) with
    | Some text => logger_error text;; exit 1
    | None => raise (UnicodeDecodeError (stderr r))
    end.

(** *** Pre-installation check

    [psutil] reports byte counts; the script divides by [1024 ** 3] and
    compares with 2 and 10.  Dividing an integer below 2^53 by a power of
    two is exact in binary64, so the comparisons and the [.2f] rendering
    (round half to even on the exact value) are computed on [N]. *)

Definition GiB : N := 1073741824.

(** A number below 100 on two digits. *)
Definition two_digits (n : N) : string :=
  (if (n <? 10)%N then "0" else "") +:+ pretty n.

(** [f"{bytes / (1024 ** 3):.2f}"]: hundredths of a GiB, rounded half to
    even. *)
Definition format_2f_GiB (bytes : N) : string :=
  let n := (bytes * 100)%N in
  let q := (n / GiB)%N in
  let r := (n mod GiB)%N in
  let q' := if ((GiB <? 2 * r) || ((2 * r =? GiB) && N.odd q))%N
            then (q + 1)%N else q in
  pretty (q' / 100)%N +:+ "." +:+ two_digits (q' mod 100)%N.

Definition pre_install_check : M unit :=
  logger_info "Performing pre-installation checks...";;
  let mem := virtual_memory_total env in
  (if (mem <? 2 * GiB)%N
   then logger_warning ("[WARNING] Available memory is " +:+ format_2f_GiB mem
                        +:+ " GB. Minimum 2GB recommended.")
   else mret tt);;
  let disk := disk_usage_free env in
  (if (disk <? 10 * GiB)%N
   then logger_warning ("[WARNING] Available disk space is " +:+ format_2f_GiB disk
                        +:+ " GB. Minimum 10GB recommended.")
   else mret tt);;
  r ← subprocess_run "docker --version";
  if decide (returncode r = 0)
  then logger_info "[INFO] Docker is already installed."
  else logger_info "[INFO] Docker is not installed. It will be installed.".

Definition update_and_upgrade_system : M unit :=
  run_command "sudo apt update && sudo apt upgrade -y" "Updating and upgrading Ubuntu".

Definition install_docker : M unit :=
  run_command "sudo apt install -y docker.io" "Installing Docker";;
  run_command "sudo systemctl start docker && sudo systemctl enable docker"
              "Starting and enabling Docker service";;
  run_command "sudo groupadd docker || true" "Creating Docker group (if not exists)";;
  run_command ("sudo usermod -aG docker " +:+ getuser env)
              "Adding current user to Docker group".

Definition compose_path : string := "docker-compose.yml".
Definition backup_path : string := "docker-compose.yml.bak".

Definition backup_existing_compose_file : M unit :=
  b ← os_path_exists "docker-compose.yml";
  if b : bool then
    let backup_file := "docker-compose.yml.bak" in
    os_rename "docker-compose.yml" backup_file;;
    logger_info ("Existing docker-compose.yml backed up as " +:+ backup_file)
  else mret tt.

Definition create_docker_network : M string :=
  let network_name := "thingsboard_net" in
  run_command ("docker network create " +:+ network_name +:+ " || true")
              ("Creating Docker network '" +:+ network_name +:+ "'");;
  mret network_name.

(** Python's [x or d] on strings: the empty string is the only false one. *)
Definition or_default (x d : string) : string :=
  if decide (x = "") then d else x.

Definition get_user_config : M (string * string * string) :=
  x ← input "[PROMPT] Enter HTTP port for ThingsBoard (default: 8080): ";
  let http_port := or_default x "8080" in
  x ← input "[PROMPT] Enter MQTT port (default: 1883): ";
  let mqtt_port := or_default x "1883" in
  x ← input "[PROMPT] Enter CoAP port (default: 5683): ";
  let coap_port := or_default x "5683" in
  mret (http_port, mqtt_port, coap_port).

Definition lower_char (c : ascii) : ascii :=
  let n := N_of_ascii c in
  if ((65 <=? n) && (n <=? 90))%N then ascii_of_N (n + 32) else c.

Fixpoint lower (s : string) : string :=
  match s with
  | EmptyString => EmptyString
  | String c s' => String (lower_char c) (lower s')
  end.

Definition prod_limits : gmap string string :=
  {[ "JAVA_OPTS" := "-Xms512m -Xmx1024m"; "DB_POOL_SIZE" := "50" ]}.
Definition dev_limits : gmap string string :=
  {[ "JAVA_OPTS" := "-Xms256m -Xmx512m"; "DB_POOL_SIZE" := "20" ]}.

Definition configure_environment : M (gmap string string) :=
  x ← input "[PROMPT] Choose environment [dev/prod] (default: dev): ";
  let env_ := or_default (lower x) "dev" in
  if decide (env_ = "prod") then
    logger_info "Production environment selected. Using optimized resource limits.";;
    mret prod_limits
  else
    logger_info "Development environment selected. Using default settings.";;
    mret dev_limits.

Definition compose_file_content (http_port mqtt_port coap_port : string) : string :=
  nl +:+
  "version: '3.5'" +:+ nl +:+
  "services:" +:+ nl +:+
  "  tb:" +:+ nl +:+
  "    image: thingsboard/tb-postgres:latest" +:+ nl +:+
  "    container_name: tb" +:+ nl +:+
  "    ports:" +:+ nl +:+
  "      - " +:+ dq +:+ http_port +:+ ":8080" +:+ dq +:+ nl +:+
  "      - " +:+ dq +:+ mqtt_port +:+ ":1883" +:+ dq +:+ nl +:+
  "      - " +:+ dq +:+ coap_port +:+ ":5683/udp" +:+ dq +:+ nl +:+
  "    environment:" +:+ nl +:+
  "      TB_QUEUE_TYPE: kafka" +:+ nl +:+
  "      SPRING_DATASOURCE_URL: jdbc:postgresql://postgres:5432/thingsboard" +:+ nl +:+
  "      SPRING_DATASOURCE_USERNAME: tb_user" +:+ nl +:+
  "      SPRING_DATASOURCE_PASSWORD: tb_password" +:+ nl +:+
  "    depends_on:" +:+ nl +:+
  "      - postgres" +:+ nl +:+
  nl +:+
  "  postgres:" +:+ nl +:+
  "    image: postgres:12" +:+ nl +:+
  "    container_name: postgres" +:+ nl +:+
  "    environment:" +:+ nl +:+
  "      POSTGRES_DB: thingsboard" +:+ nl +:+
  "      POSTGRES_USER: tb_user" +:+ nl +:+
  "      POSTGRES_PASSWORD: tb_password" +:+ nl +:+
  "    volumes:" +:+ nl +:+
  "      - ./data/db:/var/lib/postgresql/data" +:+ nl.

Definition install_thingsboard_docker_compose
    (http_port mqtt_port coap_port : string) : M unit :=
  write_file "docker-compose.yml" (compose_file_content http_port mqtt_port coap_port);;
  run_command "docker-compose up -d" "Deploying ThingsBoard with Docker Compose".

Definition configure_firewall (http_port mqtt_port coap_port : string) : M unit :=
  run_command ("sudo ufw allow " +:+ http_port) ("Allowing HTTP port " +:+ http_port);;
  run_command ("sudo ufw allow " +:+ mqtt_port) ("Allowing MQTT port " +:+ mqtt_port);;
  run_command ("sudo ufw allow " +:+ coap_port) ("Allowing CoAP port " +:+ coap_port);;
  run_command "sudo ufw enable" "Enabling the firewall".

Definition verify_installation : M unit :=
  run_command "docker-compose ps" "Checking running containers";;
  logger_info "ThingsBoard should now be accessible via http://<your-ip>:8080".

(** [try: body finally: cleanup], the shape of a [with] block whose
    [__exit__] does not swallow the exception. *)
Definition finally {A} (body : M A) (cleanup : M unit) : M A := λ w,
  match body w with
  | Returned a w' => (cleanup;; mret a) w'
  | Exited c w' => (cleanup;; exit c) w'
  | Raised e w' => (cleanup;; raise e) w'
  end.

(** [with smtplib.SMTP(host, port) as server: body]: the constructor
    connects; leaving the block sends QUIT and closes. *)
Definition with_SMTP {A} (host : string) (port : Z) (body : M A) : M A :=
  smtp_call (SMTP_connect host port);;
  finally body (smtp_call SMTP_quit).

Definition send_notification (email : string) (success : bool) : M unit :=
  let status := if success then "SUCCESS" else "FAILURE" in
  let msg := MIMEText ("The ThingsBoard installation completed with status: " +:+ status) in
  let msg := set_header "Subject" "ThingsBoard Installation Status" msg in
  let msg := set_header "From" "noreply@example.com" msg in
  let msg := set_header "To" email msg in
  try_except
    (with_SMTP "smtp.example.com" 587
       (smtp_call SMTP_starttls;;
        smtp_call (SMTP_login "user" "password");;
        smtp_call (SMTP_sendmail (get_header "From" msg) [get_header "To" msg]
                                 (as_string msg)));;
     logger_info "[INFO] Notification email sent.")
    (λ e, logger_error ("[ERROR] Failed to send notification email: " +:+ str_exn e)).

Definition full_installation : M unit :=
  pre_install_check;;
  update_and_upgrade_system;;
  install_docker;;
  backup_existing_compose_file;;
  '(http_port, mqtt_port, coap_port) ← get_user_config;
  install_thingsboard_docker_compose http_port mqtt_port coap_port;;
  configure_firewall http_port mqtt_port coap_port;;
  verify_installation;;
  send_notification "admin@example.com" true.

(** The prompt of one turn of the menu. *)
Definition menu_prompt : M string :=
  print (nl +:+ colored "=== ThingsBoard Installation Menu ===" "cyan" ["bold"]);;
  print (colored "1. Full Installation" "green" []);;
  print (colored "2. Verify Installation" "yellow" []);;
  print (colored "3. Configure Firewall" "yellow" []);;
  print (colored "4. Send Notification Email" "blue" []);;
  print (colored "5. Exit" "red" []);;
  input (colored "Enter your choice [1-5]: " "white" ["bold"]).

(** [while True:] of [main_menu].  Every turn reads one line, so the loop
    is bounded by the lines left on standard input; [None] would mean the
    bound was too small (it never is, see [main_menu_runs]). *)
Fixpoint main_menu_loop (fuel : nat) (w : World) : option (outcome unit) :=
  match fuel with
  | O => None
  | S fuel' =>
      let again (r : outcome unit) :=
        match r with
        | Returned _ w' => main_menu_loop fuel' w'
        | Exited c w' => Some (Exited c w')
        | Raised e w' => Some (Raised e w')
        end in
      match menu_prompt w with
      | Returned choice w' =>
          if decide (choice = "1") then again (full_installation w')
          else if decide (choice = "2") then again (verify_installation w')
          else if decide (choice = "3") then again (configure_firewall "8080" "1883" "5683" w')
          else if decide (choice = "4") then again (send_notification "admin@example.com" true w')
          else if decide (choice = "5")
               then Some (print (colored "Exiting. Goodbye!" "red" []) w')
          else again (print (colored "[ERROR] Invalid choice, please try again."
                                     "red" []) w')
      | Exited c w' => Some (Exited c w')
      | Raised e w' => Some (Raised e w')
      end
  end.

Definition main_menu (w : World) : option (outcome unit) :=
  main_menu_loop (S (length (stdin w))) w.

(** The status the interpreter leaves with: 0 after a normal return, the
    argument of [exit], 1 after an uncaught exception. *)
Definition process_exit_code {A} (r : outcome A) : Z :=
  match r with
  | Returned _ _ => 0
  | Exited c _ => c
  | Raised _ _ => 1
  end.

End Installer.

(** ** Reading a descriptor back

    What a reader of the rendered file sees: its lines, and the entries of
    every [ports:] list in it, first as the raw text the script put
    between the outer double quotes of the entry ([port_mappings]), then
    as YAML reads a double-quoted entry ([yaml_port_mappings]). *)

Definition is_nl (c : ascii) : bool := Ascii.eqb c "010"%char.

Fixpoint lines (s : string) : list string :=
  match s with
  | EmptyString => [EmptyString]
  | String c s' =>
      if is_nl c then EmptyString :: lines s'
      else match lines s' with
           | l :: ls => String c l :: ls
           | [] => [String c EmptyString]
           end
  end.

Fixpoint lstrip (s : string) : string :=
  match s with
  | String " " s' => lstrip s'
  | _ => s
  end.

Fixpoint drop_last_dq (s : string) : string :=
  match s with
  | EmptyString => EmptyString
  | String c EmptyString => if Ascii.eqb c "034"%char then EmptyString else s
  | String c s' => String c (drop_last_dq s')
  end.

(** The raw text of a list entry: what stands between its first and its
    last double quote. *)
Definition unquote (s : string) : string :=
  match s with
  | String c s' => if Ascii.eqb c "034"%char then drop_last_dq s' else s
  | EmptyString => EmptyString
  end.

(** The text after [- ] when the line is a list entry. *)
Definition list_entry (l : string) : option string :=
  match lstrip l with
  | String "-" (String " " rest) => Some rest
  | _ => None
  end.

Fixpoint port_entries (in_ports : bool) (ls : list string) : list string :=
  match ls with
  | [] => []
  | l :: ls' =>
      if String.eqb (lstrip l) "ports:" then port_entries true ls'
      else match list_entry l with
           | Some e => if in_ports then unquote e :: port_entries true ls'
                       else port_entries false ls'
           | None => port_entries false ls'
           end
  end.

Definition port_mappings (descriptor : string) : list string :=
  port_entries false (lines descriptor).

(** *** The entries as YAML has them

    Every entry of the [ports:] list is written between double quotes.  In
    YAML a double-quoted scalar ends at the first double quote that no
    backslash escapes, and after it the line may only go on with blanks
    and a comment ([#] after a blank).  The reader below reads an entry
    that way.  It interprets no escape sequence: on a backslash inside the
    quotes, as on a quote that is not closed on the line or is followed by
    anything but a comment, it gives no reading. *)

Definition is_dq (c : ascii) : bool := Ascii.eqb c "034"%char.
Definition is_backslash (c : ascii) : bool := Ascii.eqb c "092"%char.
Definition is_blank (c : ascii) : bool := Ascii.eqb c " "%char || Ascii.eqb c "009"%char.

(** The text up to the closing quote, and what follows it. *)
Fixpoint double_quoted (s : string) : option (string * string) :=
  match s with
  | EmptyString => None
  | String c s' =>
      if is_dq c then Some (EmptyString, s')
      else if is_backslash c then None
      else match double_quoted s' with
           | Some (x, rest) => Some (String c x, rest)
           | None => None
           end
  end.

Fixpoint skip_blanks (s : string) : string :=
  match s with
  | String c s' => if is_blank c then skip_blanks s' else s
  | EmptyString => EmptyString
  end.

(** Nothing, or blanks, or blanks and then a comment. *)
Definition ends_line (s : string) : bool :=
  match s with
  | EmptyString => true
  | String c s' =>
      is_blank c &&
      match skip_blanks s' with
      | EmptyString => true
      | String d _ => Ascii.eqb d "#"%char
      end
  end.

Definition yaml_entry (e : string) : option string :=
  match e with
  | String c s =>
      if is_dq c then
        match double_quoted s with
        | Some (x, rest) => if ends_line rest then Some x else None
        | None => None
        end
      else None
  | EmptyString => None
  end.

Fixpoint yaml_port_entries (in_ports : bool) (ls : list string) : option (list string) :=
  match ls with
  | [] => Some []
  | l :: ls' =>
      if String.eqb (lstrip l) "ports:" then yaml_port_entries true ls'
      else match list_entry l with
           | Some e =>
               if in_ports then
                 match yaml_entry e, yaml_port_entries true ls' with
                 | Some x, Some xs => Some (x :: xs)
                 | _, _ => None
                 end
               else yaml_port_entries false ls'
           | None => yaml_port_entries false ls'
           end
  end.

(** The entries of the [ports:] lists of a descriptor, read as YAML
    double-quoted scalars; [None] when one of them has no such reading. *)
Definition yaml_port_mappings (descriptor : string) : option (list string) :=
  yaml_port_entries false (lines descriptor).

Fixpoint no_newline (s : string) : bool :=
  match s with
  | EmptyString => true
  | String c s' => negb (is_nl c) && no_newline s'
  end.

(** [occurs p s]: the text [p] occurs somewhere in [s]. *)
Fixpoint is_prefix (p s : string) : bool :=
  match p, s with
  | EmptyString, _ => true
  | String a p', String b s' => Ascii.eqb a b && is_prefix p' s'
  | _, _ => false
  end.
Fixpoint occurs (p s : string) : bool :=
  is_prefix p s || match s with String _ s' => occurs p s' | EmptyString => false end.

(** ** Concrete hosts, for examples *)

Definition ok_result : CommandResult := {| returncode := 0; stderr := "" |}.
Definition failed_result : CommandResult :=
  {| returncode := 1; stderr := "E: permission denied" |}.

(** A host where every command succeeds and the mail server accepts;
    output is not coloured (as when it is not a terminal). *)
Definition good_env : Env :=
  {| shell := λ _ _, ok_result; smtp := λ _, None;
     virtual_memory_total := 8 * GiB; disk_usage_free := 100 * GiB;
     getuser := "ubuntu"; termcolor := λ text _ _, text |}.

(** A host where every command fails and the mail server is unreachable. *)
Definition bad_env : Env :=
  {| shell := λ _ _, failed_result; smtp := λ _, Some "[Errno 111] Connection refused";
     virtual_memory_total := GiB + GiB / 2; disk_usage_free := 5 * GiB;
     getuser := "ubuntu"; termcolor := λ text _ _, text |}.

(** A host where commands succeed until the firewall is touched. *)
Definition ufw_fails_env : Env :=
  {| shell := λ _ c, if is_prefix "sudo ufw" c then failed_result else ok_result;
     smtp := λ _, None;
     virtual_memory_total := 8 * GiB; disk_usage_free := 100 * GiB;
     getuser := "ubuntu"; termcolor := λ text _ _, text |}.

(** What a French host without a UTF-8 locale writes for "E: accès refusé":
    the accented letters are the single Latin-1 bytes 0xE8 and 0xE9. *)
Definition latin1_stderr : string :=
  "E: acc" +:+ String "232"%char "s refus" +:+ String "233"%char "".

(** A host where commands succeed until the firewall is touched, and the
    firewall answers in Latin-1. *)
Definition latin1_env : Env :=
  {| shell := λ _ c, if is_prefix "sudo ufw" c
                     then {| returncode := 1; stderr := latin1_stderr |}
                     else ok_result;
     smtp := λ _, None;
     virtual_memory_total := 8 * GiB; disk_usage_free := 100 * GiB;
     getuser := "ubuntu"; termcolor := λ text _ _, text |}.

(** A host with no files, nothing typed, nothing done yet. *)
Definition empty_world : World :=
  {| fs := ∅; stdin := []; stdout := []; log := []; cmds := []; outbox := [] |}.

(** * Vocabulary of the properties *)

(** The world after [run_command] on a command that succeeds. *)
Definition ran (command description : string) (w : World) : World :=
  set_cmds (cmds w ++ [command]) (set_log (log w ++ [(INFO, description)]) w).

(** The world after [run_command] on a command that fails with a stderr
    that decodes. *)
Definition ran_failed (env : Env) (command description : string) (w : World) : World :=
  set_log (log w ++ [(INFO, description);
                     (ERROR, "Failed to execute: " +:+ command);
                     (ERROR, stderr (shell env (cmds w) command))])
          (set_cmds (cmds w ++ [command]) w).

(** The world after [run_command] on a command that fails with a stderr
    that does not decode: the command is logged, its stderr is not. *)
Definition ran_undecodable (command description : string) (w : World) : World :=
  set_log (log w ++ [(INFO, description);
                     (ERROR, "Failed to execute: " +:+ command)])
          (set_cmds (cmds w ++ [command]) w).








(** The message [send_notification] composes. *)
Definition status_message (email : string) (success : bool) : Message :=
  set_header "To" email
    (set_header "From" "noreply@example.com"
       (set_header "Subject" "ThingsBoard Installation Status"
          (MIMEText ("The ThingsBoard installation completed with status: "
                     +:+ (if success then "SUCCESS" else "FAILURE"))))).

(** The pipeline up to, and without, the notification. *)
Definition provisioning (env : Env) : M unit :=
  pre_install_check env;;
  update_and_upgrade_system env;;
  install_docker env;;
  backup_existing_compose_file;;
  '(http_port, mqtt_port, coap_port) ← get_user_config;
  install_thingsboard_docker_compose env http_port mqtt_port coap_port;;
  configure_firewall env http_port mqtt_port coap_port;;
  verify_installation env.

(** The same host with another mail server. *)
Definition with_smtp (s : SmtpCall → option string) (env : Env) : Env :=
  {| shell := shell env; smtp := s;
     virtual_memory_total := virtual_memory_total env;
     disk_usage_free := disk_usage_free env; getuser := getuser env;
     termcolor := termcolor env |}.

(** A host with a descriptor from an earlier run. *)
Definition old_descriptor_world : World :=
  set_fs {[ compose_path := "version: '2'" ]} (set_stdin ["9090"; ""; ""] empty_world).

(** A host with a descriptor and, from the run before, a backup. *)
Definition two_generations_world : World :=
  set_fs {[ compose_path := "second"; backup_path := "first" ]} empty_world.

(** The spelling of "prod" in any mix of upper and lower case, letter by
    letter, without reference to [lower]. *)
Definition is_prod_any_case (s : string) : bool :=
  match s with
  | String a (String b (String c (String d EmptyString))) =>
      (Ascii.eqb a "p" || Ascii.eqb a "P") && (Ascii.eqb b "r" || Ascii.eqb b "R") &&
      (Ascii.eqb c "o" || Ascii.eqb c "O") && (Ascii.eqb d "d" || Ascii.eqb d "D")
  | _ => false
  end.

(** Putting the text [x] in front of the first of some lines. *)
Definition glue (x : string) (ls : list string) : list string :=
  match ls with
  | l :: ls' => (x +:+ l) :: ls'
  | [] => [x]
  end.

(** The line of one entry of the [ports:] list. *)
Definition port_line (mapping : string) : string :=
  "      - " +:+ dq +:+ mapping +:+ dq.

(** The four commands of [configure_firewall], in the order it has them. *)
Definition firewall_plan (http_port mqtt_port coap_port : string) : list string :=
  [ "sudo ufw allow " +:+ http_port;
    "sudo ufw allow " +:+ mqtt_port;
    "sudo ufw allow " +:+ coap_port;
    "sudo ufw enable" ].

(** What a fail-fast runner issues of a plan: each command in turn, up to
    and including the first one that exits non-zero. *)
Fixpoint issued (env : Env) (hist plan : list string) : list string :=
  match plan with
  | [] => []
  | c :: plan' =>
      c :: if decide (returncode (shell env hist c) = 0)
           then issued env (hist ++ [c]) plan' else []
  end.

(** Whether every command of a plan succeeds when run in turn. *)
Fixpoint all_ok (env : Env) (hist plan : list string) : bool :=
  match plan with
  | [] => true
  | c :: plan' =>
      bool_decide (returncode (shell env hist c) = 0) && all_ok env (hist ++ [c]) plan'
  end.

(** A run of [run_command] over a list of (command, description). *)
Fixpoint run_all (env : Env) (steps : list (string * string)) : M unit :=
  match steps with
  | [] => mret tt
  | (c, d) :: steps' => run_command env c d;; run_all env steps'
  end.

(** The commands of a full installation that runs to its end. *)
Definition installation_plan (user http_port mqtt_port coap_port : string) : list string :=
  [ "docker --version";
    "sudo apt update && sudo apt upgrade -y";
    "sudo apt install -y docker.io";
    "sudo systemctl start docker && sudo systemctl enable docker";
    "sudo groupadd docker || true";
    "sudo usermod -aG docker " +:+ user;
    "docker-compose up -d" ] ++
  firewall_plan http_port mqtt_port coap_port ++
  [ "docker-compose ps" ].

(** The files after the backup step. *)
Definition backed_up (files : gmap string string) : gmap string string :=
  match files !! compose_path with
  | Some content => <[backup_path := content]> (delete compose_path files)
  | None => files
  end.

(** [w'] differs from [w] in its files as [f] says, has the commands [p]
    added, and the same standard input. *)
Definition moved (f : gmap string string → gmap string string) (p : list string)
    (w w' : World) : Prop :=
  fs w' = f (fs w) ∧ stdin w' = stdin w ∧ cmds w' = cmds w ++ p.

(** The same outcome, with [f] applied to the world it leaves. *)
Definition outcome_map {A} (f : World → World) (r : outcome A) : outcome A :=
  match r with
  | Returned a w => Returned a (f w)
  | Exited c w => Exited c (f w)
  | Raised e w => Raised e (f w)
  end.

(** A computation that neither reads nor changes standard input: run with
    any lines on standard input it does the same, and leaves them there. *)
Definition ignores_stdin {A} (m : M A) : Prop :=
  ∀ i w, m (set_stdin i w) = outcome_map (set_stdin i) (m w).

(** The steps of a full installation before the prompts. *)
Definition before_prompts (env : Env) : M unit :=
  pre_install_check env;;
  update_and_upgrade_system env;;
  install_docker env;;
  backup_existing_compose_file.

(** The steps after them, for the ports they gave. *)
Definition after_prompts (env : Env) (h m c : string) : M unit :=
  install_thingsboard_docker_compose env h m c;;
  configure_firewall env h m c;;
  verify_installation env;;
  send_notification env "admin@example.com" true.

(** A computation that leaves at most as many lines on standard input as
    it found. *)
Definition stdin_shrinks {A} (m : M A) : Prop :=
  ∀ w, (length (stdin (world_of (m w))) ≤ length (stdin w))%nat.


(** [m] takes every world to one that [R] relates to it. *)
Definition preserves (R : World → World → Prop) {A} (m : M A) : Prop :=
  ∀ w, R w (world_of (m w)).

(** The files are the same. *)
Definition same_files (w w' : World) : Prop := fs w' = fs w.

(** No mail has left. *)
Definition same_outbox (w w' : World) : Prop := outbox w' = outbox w.

(** The commands [m] issues are the first ones of [plan], in its order,
    and all of [plan] when [m] returns. *)
Definition follows (plan : list string) {A} (m : M A) : Prop :=
  ∀ w, ∃ l, cmds (world_of (m w)) = cmds w ++ l ∧ l `prefix_of` plan ∧
            (returned (m w) = true → l = plan).

(** The four commands of [install_docker], for the login name [user]. *)
Definition docker_plan (user : string) : list string :=
  [ "sudo apt install -y docker.io";
    "sudo systemctl start docker && sudo systemctl enable docker";
    "sudo groupadd docker || true";
    "sudo usermod -aG docker " +:+ user ].

(** Whether the mail server accepts a call. *)
Definition accepted (env : Env) (c : SmtpCall) : bool :=
  match smtp env c with None => true | Some _ => false end.

(** Whether the server accepts the session of [send_notification] up to
    and including the message itself. *)
Definition delivered (env : Env) (email : string) (success : bool) : bool :=
  accepted env (SMTP_connect "smtp.example.com" 587) &&
  accepted env SMTP_starttls &&
  accepted env (SMTP_login "user" "password") &&
  accepted env (SMTP_sendmail "noreply@example.com" [email]
                  (as_string (status_message email success))).

(** An address that the [email] package writes into the [To:] header as
    it is: printable ASCII without blanks (nothing to encode, no line
    break to refuse), and short enough for the header line to stay within
    the 78 characters after which headers are folded. *)
Definition plain_char (c : ascii) : bool :=
  let n := N_of_ascii c in ((33 <=? n) && (n <=? 126))%N.

Fixpoint all_plain (s : string) : bool :=
  match s with
  | EmptyString => true
  | String c s' => plain_char c && all_plain s'
  end.

Definition plain_address (email : string) : bool :=
  all_plain email && (String.length email <=? 74)%nat.

(** A port typed in printable ASCII with neither a double quote nor a
    backslash in it; every decimal number is one. *)
Definition port_char (c : ascii) : bool :=
  let n := N_of_ascii c in
  ((32 <=? n) && (n <=? 126))%N && negb (is_dq c) && negb (is_backslash c).

Fixpoint plain_port (s : string) : bool :=
  match s with
  | EmptyString => true
  | String c s' => port_char c && plain_port s'
  end.

(** The record [verify_installation] leaves in the log. *)
Definition access_record : level * string :=
  (INFO, "ThingsBoard should now be accessible via http://<your-ip>:8080").

(** The three prompts of [get_user_config], in the order it writes them. *)
Definition port_prompts : list string :=
  [ "[PROMPT] Enter HTTP port for ThingsBoard (default: 8080): ";
    "[PROMPT] Enter MQTT port (default: 1883): ";
    "[PROMPT] Enter CoAP port (default: 5683): " ].


(** * Properties *)

(** ** The monad *)

Lemma bind_unfold {A B} (m : M A) (k : A → M B) (w : World) :
  (m ≫= k) w = match m w with
               | Returned a w' => k a w'
               | Exited c w' => Exited c w'
               | Raised e w' => Raised e w'
               end.
Proof. reflexivity. Qed.

Lemma bind_returned {A B} (m : M A) (k : A → M B) w a w' :
  m w = Returned a w' → (m ≫= k) w = k a w'.
Proof. intros H. rewrite bind_unfold, H. reflexivity. Qed.

Lemma bind_exited {A B} (m : M A) (k : A → M B) w c w' :
  m w = Exited c w' → (m ≫= k) w = Exited c w'.
Proof. intros H. rewrite bind_unfold, H. reflexivity. Qed.

Lemma bind_raised {A B} (m : M A) (k : A → M B) w e w' :
  m w = Raised e w' → (m ≫= k) w = Raised e w'.
Proof. intros H. rewrite bind_unfold, H. reflexivity. Qed.

Lemma bind_assoc {A B C} (m : M A) (k : A → M B) (h : B → M C) w :
  ((m ≫= k) ≫= h) w = (m ≫= λ a, k a ≫= h) w.
Proof. rewrite !bind_unfold. destruct (m w); reflexivity. Qed.

(** Unfolding one layer of the script's primitives and of the world. *)
Ltac unfold_prims :=
  unfold logger_info, logger_warning, logger_error, logger, subprocess_run,
    exit, raise, print, input, os_path_exists, os_rename, write_file, smtp_call.
Ltac world_simpl :=
  cbn [fs stdin stdout log cmds outbox
       set_fs set_stdin set_stdout set_log set_cmds set_outbox world_of].
Tactic Notation "world_simpl" "in" hyp(H) :=
  cbn [fs stdin stdout log cmds outbox
       set_fs set_stdin set_stdout set_log set_cmds set_outbox world_of] in H.
Ltac mstep := unfold mbind, M_bind, mret, M_ret; cbv beta; world_simpl.

(** ** The command runner *)

Section Runner.

Variable env : Env.

Lemma run_command_ok command description w :
  returncode (shell env (cmds w) command) = 0 →
  run_command env command description w = Returned tt (ran command description w).
Proof.
  intros H. unfold run_command. unfold_prims. mstep.
  case_decide; [reflexivity | contradiction].
Qed.

Lemma decode_some bytes text : decode bytes = Some text → text = bytes.
Proof. unfold decode. destruct (utf8_valid bytes); congruence. Qed.

Lemma run_command_failed command description w :
  returncode (shell env (cmds w) command) ≠ 0 →
  is_Some (decode (stderr (shell env (cmds w) command))) →
  run_command env command description w = Exited 1 (ran_failed env command description w).
Proof.
  intros H [text Hd]. unfold run_command. unfold_prims. mstep.
  case_decide; [contradiction |]. rewrite Hd. apply decode_some in Hd as ->.
  unfold ran_failed. world_simpl. rewrite <- !app_assoc. reflexivity.
Qed.

Lemma run_command_undecodable command description w :
  returncode (shell env (cmds w) command) ≠ 0 →
  decode (stderr (shell env (cmds w) command)) = None →
  run_command env command description w =
  Raised (UnicodeDecodeError (stderr (shell env (cmds w) command)))
    (ran_undecodable command description w).
Proof.
  intros H Hd. unfold run_command. unfold_prims. mstep.
  case_decide; [contradiction |]. rewrite Hd.
  unfold ran_undecodable. world_simpl. rewrite <- !app_assoc. reflexivity.
Qed.

(** The three ways [run_command] ends. *)
Lemma run_command_cases command description w :
  let res := shell env (cmds w) command in
  run_command env command description w =
  if decide (returncode res = 0) then Returned tt (ran command description w)
  else match decode (stderr res) with
       | Some _ => Exited 1 (ran_failed env command description w)
       | None => Raised (UnicodeDecodeError (stderr res))
                   (ran_undecodable command description w)
       end.
Proof.
  cbv zeta. case_decide as H; [apply run_command_ok, H |].
  destruct (decode _) eqn:Hd.
  - apply run_command_failed; [exact H | rewrite Hd; eauto].
  - apply run_command_undecodable; assumption.
Qed.

End Runner.

(** ** Fail-fast: a failed command is the last thing a run does *)

Section FailFast.

Variable env : Env.

















End FailFast.

(** ** The notification *)

Section Notification.

Variable env : Env.

Lemma send_notification_returns email success w :
  ∃ w', send_notification env email success w = Returned tt w' ∧
        fs w' = fs w ∧ cmds w' = cmds w ∧ stdin w' = stdin w ∧ stdout w' = stdout w ∧
        ((log w' = log w ++ [(INFO, "[INFO] Notification email sent.")] ∧
          outbox w' = outbox w ++ [("noreply@example.com", [email],
                                    as_string (status_message email success))])
         ∨ ∃ text, log w' = log w ++
             [(ERROR, "[ERROR] Failed to send notification email: " +:+ text)]).
Proof.
  unfold send_notification, with_SMTP, finally, try_except. unfold_prims. mstep.
  destruct (smtp env (SMTP_connect _ _)) as [t|];
    [eexists; split; [reflexivity |]; world_simpl; eauto 10 |].
  destruct (smtp env SMTP_starttls) as [t|];
    [destruct (smtp env SMTP_quit);
       eexists; (split; [reflexivity |]); world_simpl; eauto 10 |].
  destruct (smtp env (SMTP_login _ _)) as [t|];
    [destruct (smtp env SMTP_quit);
       eexists; (split; [reflexivity |]); world_simpl; eauto 10 |].
  destruct (smtp env (SMTP_sendmail _ _ _)) as [t|];
    [destruct (smtp env SMTP_quit);
       eexists; (split; [reflexivity |]); world_simpl; eauto 10 |].
  destruct (smtp env SMTP_quit);
    eexists; (split; [reflexivity |]); world_simpl; eauto 10.
Qed.

End Notification.

Lemma full_installation_split env w :
  full_installation env w =
  (provisioning env;; send_notification env "admin@example.com" true) w.
Proof.
  unfold full_installation, provisioning. rewrite !bind_unfold.
  destruct (pre_install_check env w) as [? w1|? ?|? ?]; [| reflexivity ..].
  rewrite !bind_unfold.
  destruct (update_and_upgrade_system env w1) as [? w2|? ?|? ?]; [| reflexivity ..].
  rewrite !bind_unfold.
  destruct (install_docker env w2) as [? w3|? ?|? ?]; [| reflexivity ..].
  rewrite !bind_unfold.
  destruct (backup_existing_compose_file w3) as [? w4|? ?|? ?]; [| reflexivity ..].
  rewrite !bind_unfold.
  destruct (get_user_config w4) as [[[h m] c] w5|? ?|? ?]; [| reflexivity ..].
  rewrite !bind_unfold.
  destruct (install_thingsboard_docker_compose env h m c w5) as [? w6|? ?|? ?];
    [| reflexivity ..].
  rewrite !bind_unfold.
  destruct (configure_firewall env h m c w6) as [? w7|? ?|? ?]; [| reflexivity ..].
  rewrite !bind_unfold.
  destruct (verify_installation env w7) as [? w8|? ?|? ?]; reflexivity.
Qed.

Lemma provisioning_ignores_smtp s env :
  provisioning (with_smtp s env) = provisioning env.
Proof. reflexivity. Qed.

(** C8: [send_notification] always returns normally, whatever the mail
    server answers: it leaves files, commands and standard input alone and
    adds one log record, the info record and the sent message when every
    call on the session succeeded, an error record otherwise.  A full
    installation therefore ends the same way (same exit code, same files,
    same commands) whatever the mail server does. *)
Theorem notification_failure_is_swallowed (env : Env) (email : string) (success : bool)
    (w : World) :
  (∃ w', send_notification env email success w = Returned tt w' ∧
         fs w' = fs w ∧ cmds w' = cmds w ∧ stdin w' = stdin w ∧ stdout w' = stdout w ∧
         ((log w' = log w ++ [(INFO, "[INFO] Notification email sent.")] ∧
           outbox w' = outbox w ++ [("noreply@example.com", [email],
                                     as_string (status_message email success))])
          ∨ ∃ text, log w' = log w ++
              [(ERROR, "[ERROR] Failed to send notification email: " +:+ text)])) ∧
  (∀ s, let r := full_installation env w in
        let r' := full_installation (with_smtp s env) w in
        process_exit_code r' = process_exit_code r ∧
        returned r' = returned r ∧
        fs (world_of r') = fs (world_of r) ∧
        cmds (world_of r') = cmds (world_of r) ∧
        stdin (world_of r') = stdin (world_of r)).
Proof.
  split; [apply send_notification_returns |].
  intros s r r'. subst r r'. rewrite !full_installation_split, !bind_unfold.
  rewrite provisioning_ignores_smtp.
  destruct (provisioning env w) as [[] w1|code w1|e w1]; [| repeat split ..].
  destruct (send_notification_returns env "admin@example.com" true w1)
    as (wa & -> & Fa & Ca & Ia & _).
  destruct (send_notification_returns (with_smtp s env) "admin@example.com" true w1)
    as (wb & -> & Fb & Cb & Ib & _).
  cbn. rewrite Fa, Fb, Ca, Cb, Ia, Ib. repeat split.
Qed.

(** On a host whose mail server refuses the connection the installation
    still completes, with the failure in the log. *)
Example notification_refused :
  let env := with_smtp (λ _, Some "[Errno 111] Connection refused") good_env in
  let r := full_installation env (set_stdin [""; ""; ""] empty_world) in
  returned r = true ∧ process_exit_code r = 0 ∧ outbox (world_of r) = [] ∧
  last (log (world_of r)) =
    Some (ERROR, "[ERROR] Failed to send notification email: [Errno 111] Connection refused").
Proof. vm_compute. repeat split. Qed.

(** ** Fail-fast, step by step *)

Section FailFastSteps.

Variable env : Env.














End FailFastSteps.

(** ** Backup and deploy *)

Section Backup.

Variable env : Env.

Lemma compose_ne_backup : compose_path ≠ backup_path.
Proof. discriminate. Qed.

Lemma backup_present w content :
  fs w !! compose_path = Some content →
  backup_existing_compose_file w =
  Returned tt
    (set_log (log w ++ [(INFO, "Existing docker-compose.yml backed up as docker-compose.yml.bak")])
       (set_fs (<[backup_path := content]> (delete compose_path (fs w))) w)).
Proof.
  intros H. unfold backup_existing_compose_file. unfold_prims. mstep.
  change "docker-compose.yml" with compose_path.
  rewrite H, bool_decide_eq_true_2 by eauto. mstep. rewrite H. reflexivity.
Qed.

Lemma backup_absent w :
  fs w !! compose_path = None → backup_existing_compose_file w = Returned tt w.
Proof.
  intros H. unfold backup_existing_compose_file. unfold_prims. mstep.
  change "docker-compose.yml" with compose_path.
  rewrite H, bool_decide_eq_false_2; [reflexivity |]. intros [? ?]. discriminate.
Qed.

Lemma run_command_fs command description w :
  fs (world_of (run_command env command description w)) = fs w.
Proof.
  rewrite run_command_cases. cbv zeta. case_decide; [reflexivity |].
  destruct (decode _); reflexivity.
Qed.

Lemma deploy_fs h m c w :
  fs (world_of (install_thingsboard_docker_compose env h m c w)) =
  <[compose_path := compose_file_content h m c]> (fs w).
Proof.
  unfold install_thingsboard_docker_compose. rewrite bind_unfold.
  unfold write_file at 1. rewrite run_command_fs. reflexivity.
Qed.

Lemma get_user_config_reads a b c rest w :
  get_user_config (set_stdin (a :: b :: c :: rest) w) =
  Returned (or_default a "8080", or_default b "1883", or_default c "5683")
    (set_stdin rest
       (set_stdout (stdout w ++
          ["[PROMPT] Enter HTTP port for ThingsBoard (default: 8080): ";
           "[PROMPT] Enter MQTT port (default: 1883): ";
           "[PROMPT] Enter CoAP port (default: 5683): "]) w)).
Proof.
  unfold get_user_config. unfold_prims. mstep. rewrite <- !app_assoc. reflexivity.
Qed.

End Backup.



(** C9: with a descriptor present and a file already at the backup path,
    the backup step puts the descriptor's text at the backup path and frees
    the descriptor path; what the backup path held before has no influence
    on the result, which is the same whatever that text was: the earlier
    backup is gone. *)
Theorem backup_replaces_earlier_backup (w : World) (content old : string) :
  fs w !! compose_path = Some content →
  fs w !! backup_path = Some old →
  ∃ w', backup_existing_compose_file w = Returned tt w' ∧
        fs w' !! backup_path = Some content ∧
        fs w' !! compose_path = None ∧
        ∀ other,
          backup_existing_compose_file (set_fs (<[backup_path := other]> (fs w)) w) =
          Returned tt w'.
Proof.
  intros Hc Hb. rewrite (backup_present w content Hc).
  eexists. split; [reflexivity |]. world_simpl. repeat split.
  - apply lookup_insert_eq.
  - rewrite lookup_insert_ne by (symmetry; apply compose_ne_backup).
    apply lookup_delete_eq.
  - intros other. rewrite (backup_present _ content).
    + world_simpl. unfold set_log, set_fs. cbn. f_equal. f_equal.
      rewrite delete_insert_ne by apply compose_ne_backup.
      apply insert_insert_eq.
    + world_simpl. rewrite lookup_insert_ne by (symmetry; apply compose_ne_backup).
      exact Hc.
Qed.

Lemma backup_replaces_earlier_backup_witness :
  fs two_generations_world !! compose_path = Some "second" ∧
  fs two_generations_world !! backup_path = Some "first" ∧
  ∃ w', backup_existing_compose_file two_generations_world = Returned tt w' ∧
        fs w' !! backup_path = Some "second" ∧
        fs w' !! compose_path = None.
Proof.
  assert (Hc : fs two_generations_world !! compose_path = Some "second") by reflexivity.
  assert (Hb : fs two_generations_world !! backup_path = Some "first") by reflexivity.
  destruct (backup_replaces_earlier_backup two_generations_world "second" "first" Hc Hb)
    as (w' & E & B & C & _).
  split; [exact Hc |]. split; [exact Hb |]. exists w'. repeat split; assumption.
Defined.

(** After the backup the only file left is the new backup: the text
    ["first"] is nowhere on the file system. *)
Example earlier_backup_is_gone :
  map_to_list (fs (world_of (backup_existing_compose_file two_generations_world))) =
  [(backup_path, "second")].
Proof. vm_compute. reflexivity. Qed.

(** ** Gathering the configuration *)

Lemma or_default_nonempty x d : d ≠ "" → or_default x d ≠ "".
Proof. intros Hd. unfold or_default. case_decide; assumption. Qed.

Lemma or_default_blank d : or_default "" d = d.
Proof. reflexivity. Qed.

Lemma or_default_given x d : x ≠ "" → or_default x d = x.
Proof. intros H. unfold or_default. case_decide; [contradiction | reflexivity]. Qed.

Lemma get_user_config_nonempty w h m c w' :
  get_user_config w = Returned (h, m, c) w' → h ≠ "" ∧ m ≠ "" ∧ c ≠ "".
Proof.
  unfold get_user_config. unfold_prims. mstep.
  destruct (stdin w) as [|x1 [|x2 [|x3 rest]]]; try discriminate.
  intros [= <- <- <- _]. repeat split; apply or_default_nonempty; discriminate.
Qed.

(** C4: three blank answers give exactly ("8080", "1883", "5683"); three
    answers of any kind give three ports, none of them empty; and whenever
    [get_user_config] returns, none of the three ports is empty. *)
Theorem blank_ports_default (w : World) :
  (∀ rest, ∃ w',
     get_user_config (set_stdin ("" :: "" :: "" :: rest) w) =
     Returned ("8080", "1883", "5683") w') ∧
  (∀ a b c rest, ∃ h m p w',
     get_user_config (set_stdin (a :: b :: c :: rest) w) = Returned (h, m, p) w' ∧
     h ≠ "" ∧ m ≠ "" ∧ p ≠ "") ∧
  (∀ h m p w', get_user_config w = Returned (h, m, p) w' → h ≠ "" ∧ m ≠ "" ∧ p ≠ "").
Proof.
  split; [| split].
  - intros rest. rewrite get_user_config_reads. eexists. reflexivity.
  - intros a b c rest. rewrite get_user_config_reads. do 4 eexists.
    split; [reflexivity |]. repeat split; apply or_default_nonempty; discriminate.
  - intros h m p w'. apply get_user_config_nonempty.
Qed.

Lemma blank_ports_default_witness :
  let w := set_stdin [""; "11883"; ""] empty_world in
  ∃ w', get_user_config w = Returned ("8080", "11883", "5683") w' ∧
        "8080" ≠ "" ∧ "11883" ≠ "" ∧ "5683" ≠ "".
Proof.
  exists (world_of (get_user_config (set_stdin [""; "11883"; ""] empty_world))).
  assert (E : get_user_config (set_stdin [""; "11883"; ""] empty_world) =
              Returned ("8080", "11883", "5683")
                (world_of (get_user_config (set_stdin [""; "11883"; ""] empty_world))))
    by (vm_compute; reflexivity).
  split; [exact E |].
  destruct (blank_ports_default (set_stdin [""; "11883"; ""] empty_world)) as (_ & _ & T).
  exact (T "8080" "11883" "5683" _ E).
Defined.

(** With fewer than three lines left on standard input there is no
    configuration at all: [input] raises EOFError. *)
Example get_user_config_eof :
  ∃ w', get_user_config (set_stdin ["9090"; ""] empty_world) = Raised EOFError w'.
Proof. eexists. vm_compute. reflexivity. Qed.

(** *** The environment tier *)

Lemma lower_char_is (l u : ascii) :
  (∀ c, Ascii.eqb (lower_char c) l = (Ascii.eqb c l || Ascii.eqb c u)) →
  ∀ c, lower_char c = l ↔ (Ascii.eqb c l || Ascii.eqb c u) = true.
Proof. intros H c. rewrite <- H. symmetry. apply Ascii.eqb_eq. Qed.

Lemma lower_char_p c : Ascii.eqb (lower_char c) "p" = (Ascii.eqb c "p" || Ascii.eqb c "P").
Proof. destruct c as [[] [] [] [] [] [] [] []]; reflexivity. Qed.
Lemma lower_char_r c : Ascii.eqb (lower_char c) "r" = (Ascii.eqb c "r" || Ascii.eqb c "R").
Proof. destruct c as [[] [] [] [] [] [] [] []]; reflexivity. Qed.
Lemma lower_char_o c : Ascii.eqb (lower_char c) "o" = (Ascii.eqb c "o" || Ascii.eqb c "O").
Proof. destruct c as [[] [] [] [] [] [] [] []]; reflexivity. Qed.
Lemma lower_char_d c : Ascii.eqb (lower_char c) "d" = (Ascii.eqb c "d" || Ascii.eqb c "D").
Proof. destruct c as [[] [] [] [] [] [] [] []]; reflexivity. Qed.

Lemma lower_is_prod s : String.eqb (lower s) "prod" = is_prod_any_case s.
Proof.
  destruct s as [|a [|b [|c [|d [|e s]]]]]; try reflexivity.
  - cbn [lower String.eqb]. destruct (Ascii.eqb (lower_char a) "p"); reflexivity.
  - cbn [lower String.eqb].
    destruct (Ascii.eqb (lower_char a) "p"), (Ascii.eqb (lower_char b) "r"); reflexivity.
  - cbn [lower String.eqb].
    destruct (Ascii.eqb (lower_char a) "p"), (Ascii.eqb (lower_char b) "r"),
      (Ascii.eqb (lower_char c) "o"); reflexivity.
  - cbn [lower String.eqb is_prod_any_case].
    rewrite lower_char_p, lower_char_r, lower_char_o, lower_char_d.
    destruct (_ || _), (_ || _), (_ || _), (_ || _); reflexivity.
  - cbn [lower String.eqb is_prod_any_case].
    destruct (Ascii.eqb (lower_char a) "p"), (Ascii.eqb (lower_char b) "r"),
      (Ascii.eqb (lower_char c) "o"), (Ascii.eqb (lower_char d) "d"); reflexivity.
Qed.

Lemma tier_is_prod s : or_default (lower s) "dev" = "prod" ↔ is_prod_any_case s = true.
Proof.
  rewrite <- lower_is_prod, String.eqb_eq. unfold or_default.
  case_decide as H; [| tauto]. rewrite H. split; discriminate.
Qed.

Lemma configure_environment_reads s rest w :
  configure_environment (set_stdin (s :: rest) w) =
  Returned (if is_prod_any_case s then prod_limits else dev_limits)
    (set_log (log w ++ [(INFO,
        if is_prod_any_case s
        then "Production environment selected. Using optimized resource limits."
        else "Development environment selected. Using default settings.")])
       (set_stdin rest
          (set_stdout (stdout w ++
             ["[PROMPT] Choose environment [dev/prod] (default: dev): "]) w))).
Proof.
  unfold configure_environment. unfold_prims. mstep.
  case_decide as H; apply tier_is_prod in H || apply (not_iff_compat (tier_is_prod s)) in H.
  - rewrite H. reflexivity.
  - apply not_true_is_false in H. rewrite H. reflexivity.
Qed.

(** C5: on any answer, [configure_environment] returns the production
    limits when the answer spells "prod" in some mix of cases and the
    development limits otherwise (the blank answer included); the two
    dictionaries hold exactly the keys JAVA_OPTS and DB_POOL_SIZE with the
    stated values. *)
Theorem tier_selects_limits (w : World) (answer : string) (rest : list string) :
  (∃ w', configure_environment (set_stdin (answer :: rest) w) =
         Returned (if is_prod_any_case answer then prod_limits else dev_limits) w') ∧
  is_prod_any_case "" = false ∧
  prod_limits !! "JAVA_OPTS" = Some "-Xms512m -Xmx1024m" ∧
  prod_limits !! "DB_POOL_SIZE" = Some "50" ∧
  dom prod_limits = {[ "JAVA_OPTS"; "DB_POOL_SIZE" ]} ∧
  dev_limits !! "JAVA_OPTS" = Some "-Xms256m -Xmx512m" ∧
  dev_limits !! "DB_POOL_SIZE" = Some "20" ∧
  dom dev_limits = {[ "JAVA_OPTS"; "DB_POOL_SIZE" ]}.
Proof.
  split.
  - rewrite configure_environment_reads. eexists. reflexivity.
  - repeat split; vm_compute; reflexivity.
Qed.

Example tier_answers :
  is_prod_any_case "prod" = true ∧ is_prod_any_case "PROD" = true ∧
  is_prod_any_case "pRoD" = true ∧ is_prod_any_case "dev" = false ∧
  is_prod_any_case "production" = false ∧ is_prod_any_case " prod" = false ∧
  is_prod_any_case "staging" = false.
Proof. repeat split. Qed.

(** ** The rendered descriptor *)

Lemma append_cons c s t : String c s +:+ t = String c (s +:+ t).
Proof. reflexivity. Qed.

Lemma append_nil t : "" +:+ t = t.
Proof. reflexivity. Qed.

Lemma append_assoc (a b c : string) : (a +:+ b) +:+ c = a +:+ (b +:+ c).
Proof. induction a as [|x a IH]; [reflexivity |]. rewrite !append_cons, IH. reflexivity. Qed.

Lemma lines_nl s : lines (nl +:+ s) = "" :: lines s.
Proof. reflexivity. Qed.

Lemma lines_glue x s : no_newline x = true → lines (x +:+ s) = glue x (lines s).
Proof.
  induction x as [|c x IH]; intros H.
  - rewrite append_nil. destruct s as [|c s]; [reflexivity |].
    cbn [lines]. destruct (is_nl c); [reflexivity |]. destruct (lines s); reflexivity.
  - cbn [no_newline] in H. apply andb_true_iff in H as [Hc Hx].
    apply negb_true_iff in Hc. rewrite append_cons. cbn [lines]. rewrite Hc, (IH Hx).
    destruct (lines s); reflexivity.
Qed.

Lemma drop_last_dq_append x : drop_last_dq (x +:+ dq) = x.
Proof.
  induction x as [|c x IH]; [reflexivity |].
  rewrite append_cons. cbn [drop_last_dq]. rewrite IH.
  destruct (x +:+ dq) eqn:E; [| reflexivity].
  destruct x; discriminate.
Qed.

Lemma append_empty_r (s : string) : s +:+ "" = s.
Proof. induction s as [|c s IH]; [reflexivity |]. rewrite append_cons, IH. reflexivity. Qed.

Lemma lines_compose_file_content h m c :
  no_newline h = true → no_newline m = true → no_newline c = true →
  lines (compose_file_content h m c) =
  [ "";
    "version: '3.5'";
    "services:";
    "  tb:";
    "    image: thingsboard/tb-postgres:latest";
    "    container_name: tb";
    "    ports:";
    port_line (h +:+ ":8080");
    port_line (m +:+ ":1883");
    port_line (c +:+ ":5683/udp");
    "    environment:";
    "      TB_QUEUE_TYPE: kafka";
    "      SPRING_DATASOURCE_URL: jdbc:postgresql://postgres:5432/thingsboard";
    "      SPRING_DATASOURCE_USERNAME: tb_user";
    "      SPRING_DATASOURCE_PASSWORD: tb_password";
    "    depends_on:";
    "      - postgres";
    "";
    "  postgres:";
    "    image: postgres:12";
    "    container_name: postgres";
    "    environment:";
    "      POSTGRES_DB: thingsboard";
    "      POSTGRES_USER: tb_user";
    "      POSTGRES_PASSWORD: tb_password";
    "    volumes:";
    "      - ./data/db:/var/lib/postgresql/data";
    "" ].
Proof.
  intros Hh Hm Hc. unfold compose_file_content.
  repeat first
    [ rewrite lines_nl
    | rewrite lines_glue by first [assumption | reflexivity] ].
  change (lines nl) with [""; ""]. cbn [glue].
  unfold port_line. rewrite !append_empty_r, !append_assoc. reflexivity.
Qed.

Lemma pe_ports b l ls :
  String.eqb (lstrip l) "ports:" = true →
  port_entries b (l :: ls) = port_entries true ls.
Proof. intros H. cbn [port_entries]. rewrite H. reflexivity. Qed.

Lemma pe_other b l ls :
  String.eqb (lstrip l) "ports:" = false → list_entry l = None →
  port_entries b (l :: ls) = port_entries false ls.
Proof. intros H1 H2. cbn [port_entries]. rewrite H1, H2. reflexivity. Qed.

Lemma pe_entry_elsewhere l ls :
  String.eqb (lstrip l) "ports:" = false →
  port_entries false (l :: ls) = port_entries false ls.
Proof.
  intros H. cbn [port_entries]. rewrite H. destruct (list_entry l); reflexivity.
Qed.

Lemma pe_port_line x ls :
  port_entries true (port_line x :: ls) = x :: port_entries true ls.
Proof.
  cbn [port_entries]. unfold port_line, dq.
  rewrite !append_cons, !append_nil. cbn [lstrip String.eqb Ascii.eqb Bool.eqb].
  unfold list_entry. cbn [lstrip]. cbn [unquote Ascii.eqb Bool.eqb].
  change (String "034" "") with dq. rewrite drop_last_dq_append. reflexivity.
Qed.

Lemma port_mappings_rendered h m c :
  no_newline h = true → no_newline m = true → no_newline c = true →
  port_mappings (compose_file_content h m c) =
  [h +:+ ":8080"; m +:+ ":1883"; c +:+ ":5683/udp"].
Proof.
  intros Hh Hm Hc. unfold port_mappings.
  rewrite lines_compose_file_content by assumption.
  repeat first
    [ rewrite pe_port_line
    | rewrite pe_ports by reflexivity
    | rewrite pe_other by reflexivity
    | rewrite pe_entry_elsewhere by reflexivity ].
  reflexivity.
Qed.

Lemma plain_port_no_newline s : plain_port s = true → no_newline s = true.
Proof.
  induction s as [|c s IH]; [reflexivity |]. cbn [plain_port no_newline].
  intros H. apply andb_true_iff in H as [Hc Hs]. rewrite (IH Hs), andb_true_r.
  unfold port_char in Hc. unfold is_nl.
  destruct (Ascii.eqb_spec c "010"%char) as [-> |]; [discriminate Hc | reflexivity].
Qed.

Lemma plain_port_append a b :
  plain_port a = true → plain_port b = true → plain_port (a +:+ b) = true.
Proof.
  intros Ha Hb. induction a as [|c a IH]; [exact Hb |].
  rewrite append_cons. cbn [plain_port] in *.
  apply andb_true_iff in Ha as [Hc Ha]. rewrite Hc, (IH Ha). reflexivity.
Qed.

(** A double-quoted text without quote or backslash is read back whole. *)
Lemma double_quoted_plain x rest :
  plain_port x = true → double_quoted (x +:+ dq +:+ rest) = Some (x, rest).
Proof.
  induction x as [|c x IH]; [reflexivity |]. cbn [plain_port]. intros H.
  apply andb_true_iff in H as [Hc Hx]. rewrite append_cons. cbn [double_quoted].
  rewrite (IH Hx). unfold port_char in Hc.
  apply andb_true_iff in Hc as [Hc Hb]. apply andb_true_iff in Hc as [_ Hq].
  apply negb_true_iff in Hb, Hq. rewrite Hb, Hq. reflexivity.
Qed.

Lemma ype_ports b l ls :
  String.eqb (lstrip l) "ports:" = true →
  yaml_port_entries b (l :: ls) = yaml_port_entries true ls.
Proof. intros H. cbn [yaml_port_entries]. rewrite H. reflexivity. Qed.

Lemma ype_other b l ls :
  String.eqb (lstrip l) "ports:" = false → list_entry l = None →
  yaml_port_entries b (l :: ls) = yaml_port_entries false ls.
Proof. intros H1 H2. cbn [yaml_port_entries]. rewrite H1, H2. reflexivity. Qed.

Lemma ype_entry_elsewhere l ls :
  String.eqb (lstrip l) "ports:" = false →
  yaml_port_entries false (l :: ls) = yaml_port_entries false ls.
Proof.
  intros H. cbn [yaml_port_entries]. rewrite H. destruct (list_entry l); reflexivity.
Qed.

Lemma ype_port_line x ls :
  plain_port x = true →
  yaml_port_entries true (port_line x :: ls) =
  match yaml_port_entries true ls with Some xs => Some (x :: xs) | None => None end.
Proof.
  intros Hx. cbn [yaml_port_entries]. unfold port_line, dq.
  rewrite !append_cons, !append_nil. cbn [lstrip String.eqb Ascii.eqb Bool.eqb].
  unfold list_entry. cbn [lstrip]. cbn [yaml_entry is_dq Ascii.eqb Bool.eqb].
  change (String "034" "") with (dq +:+ "").
  rewrite double_quoted_plain by exact Hx. reflexivity.
Qed.

Lemma yaml_port_mappings_rendered h m c :
  plain_port h = true → plain_port m = true → plain_port c = true →
  yaml_port_mappings (compose_file_content h m c) =
  Some [h +:+ ":8080"; m +:+ ":1883"; c +:+ ":5683/udp"].
Proof.
  intros Hh Hm Hc. unfold yaml_port_mappings.
  rewrite lines_compose_file_content by (apply plain_port_no_newline; assumption).
  repeat first
    [ rewrite ype_port_line by (apply plain_port_append; [assumption | reflexivity])
    | rewrite ype_ports by reflexivity
    | rewrite ype_other by reflexivity
    | rewrite ype_entry_elsewhere by reflexivity ].
  reflexivity.
Qed.

Lemma gathered_ports_are_plain w h m c w' :
  Forall (λ l, plain_port l = true) (stdin w) →
  get_user_config w = Returned (h, m, c) w' →
  plain_port h = true ∧ plain_port m = true ∧ plain_port c = true.
Proof.
  intros Hl. unfold get_user_config. unfold_prims. mstep.
  destruct (stdin w) as [|x1 [|x2 [|x3 rest]]]; try discriminate.
  apply Forall_cons in Hl as [H1 Hl]. apply Forall_cons in Hl as [H2 Hl].
  apply Forall_cons in Hl as [H3 _].
  intros [= <- <- <- _]. unfold or_default.
  repeat split; case_decide; first [assumption | reflexivity].
Qed.

(** C6 (as the code has it): read as YAML, the [ports:] lists of the
    rendered descriptor hold exactly three entries, the three given ports
    against 8080, 1883 and 5683/udp, in that order, and nothing else: for
    (9090, 11883, 15683); for any three ports of printable ASCII with no
    double quote and no backslash in them; and so for any three ports that
    [get_user_config] gathers from lines of that kind. *)
Theorem descriptor_has_three_port_mappings (http_port mqtt_port coap_port : string) :
  yaml_port_mappings (compose_file_content "9090" "11883" "15683") =
    Some ["9090:8080"; "11883:1883"; "15683:5683/udp"] ∧
  (plain_port http_port = true → plain_port mqtt_port = true →
   plain_port coap_port = true →
   yaml_port_mappings (compose_file_content http_port mqtt_port coap_port) =
   Some [http_port +:+ ":8080"; mqtt_port +:+ ":1883"; coap_port +:+ ":5683/udp"]) ∧
  (∀ w w', Forall (λ l, plain_port l = true) (stdin w) →
     get_user_config w = Returned (http_port, mqtt_port, coap_port) w' →
     yaml_port_mappings (compose_file_content http_port mqtt_port coap_port) =
     Some [http_port +:+ ":8080"; mqtt_port +:+ ":1883"; coap_port +:+ ":5683/udp"]).
Proof.
  split; [| split].
  - apply yaml_port_mappings_rendered; reflexivity.
  - apply yaml_port_mappings_rendered.
  - intros w w' Hl Hg.
    destruct (gathered_ports_are_plain w _ _ _ w' Hl Hg) as (Hh & Hm & Hc).
    apply yaml_port_mappings_rendered; assumption.
Qed.

Lemma descriptor_has_three_port_mappings_witness :
  let w := set_stdin ["9090"; ""; "15683"] empty_world in
  Forall (λ l, plain_port l = true) (stdin w) ∧
  (∃ w', get_user_config w = Returned ("9090", "1883", "15683") w') ∧
  yaml_port_mappings (compose_file_content "9090" "1883" "15683") =
  Some ["9090:8080"; "1883:1883"; "15683:5683/udp"].
Proof.
  assert (Hl : Forall (λ l, plain_port l = true)
                 (stdin (set_stdin ["9090"; ""; "15683"] empty_world)))
    by (repeat constructor).
  assert (Hg : get_user_config (set_stdin ["9090"; ""; "15683"] empty_world) =
               Returned ("9090", "1883", "15683")
                 (world_of (get_user_config (set_stdin ["9090"; ""; "15683"] empty_world))))
    by (vm_compute; reflexivity).
  split; [exact Hl |]. split; [eexists; exact Hg |].
  destruct (descriptor_has_three_port_mappings "9090" "1883" "15683") as (_ & _ & T).
  exact (T _ _ Hl Hg).
Defined.

(** C6 as stated fails: the ports are written between double quotes
    without escaping.  The answer [1" #] at the HTTP prompt is gathered as
    it is, and the first entry of the descriptor then reads ["1" #:8080"]:
    in YAML the scalar 1 and a comment.  The descriptor has an entry with
    no internal port, and none mapping the gathered port against 8080. *)
Lemma quote_in_port_cuts_the_mapping :
  let port := "1" +:+ dq +:+ " #" in
  let descriptor := compose_file_content port "1883" "5683" in
  (∃ w', get_user_config (set_stdin [port; ""; ""] empty_world) =
         Returned (port, "1883", "5683") w') ∧
  no_newline port = true ∧
  lines descriptor !! 7%nat = Some ("      - " +:+ dq +:+ "1" +:+ dq +:+ " #:8080" +:+ dq) ∧
  yaml_port_mappings descriptor = Some ["1"; "1883:1883"; "5683:5683/udp"] ∧
  yaml_port_mappings descriptor ≠ Some [port +:+ ":8080"; "1883:1883"; "5683:5683/udp"].
Proof.
  cbv zeta. split; [eexists; vm_compute; reflexivity |].
  split; [reflexivity |]. split; [vm_compute; reflexivity |].
  split; [vm_compute; reflexivity |]. vm_compute. discriminate.
Qed.

(** A text with a line break in it would add entries of its own; no line
    read by [input] is such a text. *)
Example line_break_would_inject :
  let injected := "1:1" +:+ dq +:+ nl +:+ "      - " +:+ dq +:+ "2" in
  no_newline injected = false ∧
  port_mappings (compose_file_content injected "1883" "5683") =
  ["1:1"; "2:8080"; "1883:1883"; "5683:5683/udp"].
Proof. vm_compute. split; reflexivity. Qed.

(** ** The firewall *)

Lemma issued_prefix env hist plan : issued env hist plan `prefix_of` plan.
Proof.
  revert hist. induction plan as [|c plan IH]; intros hist; cbn.
  - reflexivity.
  - case_decide.
    + apply prefix_cons, IH.
    + apply prefix_cons, prefix_nil.
Qed.

Lemma issued_all_ok env hist plan :
  all_ok env hist plan = true → issued env hist plan = plan.
Proof.
  revert hist. induction plan as [|c plan IH]; intros hist H; cbn in *; [reflexivity |].
  apply andb_true_iff in H as [Hc Hp]. apply bool_decide_eq_true in Hc.
  case_decide; [| contradiction]. f_equal. apply IH, Hp.
Qed.

Lemma all_ok_all env hist plan :
  (∀ h c, c ∈ plan → returncode (shell env h c) = 0) → all_ok env hist plan = true.
Proof.
  revert hist. induction plan as [|c plan IH]; intros hist H; cbn; [reflexivity |].
  apply andb_true_iff. split.
  - apply bool_decide_eq_true, H. left.
  - apply IH. intros h c' Hin. apply H. right. exact Hin.
Qed.

Lemma bind_ret_unit (m : M unit) w : (m;; mret tt) w = m w.
Proof. rewrite bind_unfold. destruct (m w) as [[] ?|? ?|? ?]; reflexivity. Qed.

Section Plans.

Variable env : Env.

Lemma run_all_spec steps w :
  let r := run_all env steps w in
  cmds (world_of r) = cmds w ++ issued env (cmds w) steps.*1 ∧
  fs (world_of r) = fs w ∧ stdin (world_of r) = stdin w ∧
  returned r = all_ok env (cmds w) steps.*1 ∧
  (returned r = false → process_exit_code r = 1).
Proof.
  revert w. induction steps as [|[c d] steps IH]; intros w; cbn [run_all fmap list_fmap issued all_ok fst].
  - cbn. rewrite app_nil_r. repeat split. discriminate.
  - cbv zeta. rewrite bind_unfold.
    destruct (decide (returncode (shell env (cmds w) c) = 0)) as [H|H].
    + rewrite run_command_ok, bool_decide_eq_true_2 by assumption.
      destruct (IH (ran c d w)) as (Hc & Hf & Hi & Hr & He). cbv zeta in *.
      change (cmds (ran c d w)) with (cmds w ++ [c]) in Hc, Hr.
      change (fs (ran c d w)) with (fs w) in Hf.
      change (stdin (ran c d w)) with (stdin w) in Hi.
      cbv beta iota.
      rewrite Hc, Hf, Hi, <- app_assoc. repeat split; assumption.
    + rewrite run_command_cases, bool_decide_eq_false_2 by assumption. cbv zeta.
      rewrite decide_False by assumption. destruct (decode _); repeat split.
Qed.

Lemma configure_firewall_run_all h m c w :
  configure_firewall env h m c w =
  run_all env [ ("sudo ufw allow " +:+ h, "Allowing HTTP port " +:+ h);
                ("sudo ufw allow " +:+ m, "Allowing MQTT port " +:+ m);
                ("sudo ufw allow " +:+ c, "Allowing CoAP port " +:+ c);
                ("sudo ufw enable", "Enabling the firewall") ] w.
Proof.
  unfold configure_firewall. cbn [run_all]. rewrite !bind_unfold.
  destruct (run_command env _ _ w) as [? w1|? ?|? ?]; [| reflexivity ..].
  rewrite !bind_unfold.
  destruct (run_command env _ _ w1) as [? w2|? ?|? ?]; [| reflexivity ..].
  rewrite !bind_unfold.
  destruct (run_command env _ _ w2) as [? w3|? ?|? ?]; [| reflexivity ..].
  symmetry. apply bind_ret_unit.
Qed.

End Plans.

(** C7 (as the code has it): [configure_firewall] issues the commands
    allow-http, allow-mqtt, allow-coap, enable in that order, each at most
    once, and stops after the first that exits non-zero, so what it issues
    is a prefix of that plan; it returns exactly when all four succeeded,
    and then it has issued the three allow rules followed by the one
    enable; otherwise the process ends with exit code 1. *)
Theorem firewall_issues_plan_until_failure (env : Env) (http_port mqtt_port coap_port : string)
    (w : World) :
  let plan := firewall_plan http_port mqtt_port coap_port in
  let r := configure_firewall env http_port mqtt_port coap_port w in
  cmds (world_of r) = cmds w ++ issued env (cmds w) plan ∧
  issued env (cmds w) plan `prefix_of` plan ∧
  returned r = all_ok env (cmds w) plan ∧
  (returned r = true → cmds (world_of r) = cmds w ++ plan) ∧
  (returned r = false → process_exit_code r = 1) ∧
  ((∀ hist c, c ∈ plan → returncode (shell env hist c) = 0) →
   returned r = true ∧ cmds (world_of r) = cmds w ++ plan).
Proof.
  intros plan r. subst r. rewrite configure_firewall_run_all.
  match goal with |- context [run_all env ?s w] =>
    destruct (run_all_spec env s w) as (Hc & _ & _ & Hr & He) end.
  cbv zeta in *. change (_.*1) with plan in Hc, Hr.
  split; [exact Hc |]. split; [apply issued_prefix |]. split; [exact Hr |].
  split; [| split; [exact He |]].
  - intros Hret. rewrite Hc, issued_all_ok; [reflexivity |]. rewrite <- Hr. exact Hret.
  - intros Hall. pose proof (all_ok_all env (cmds w) plan Hall) as Hok.
    split; [rewrite Hr; exact Hok |]. rewrite Hc, issued_all_ok by exact Hok. reflexivity.
Qed.

Lemma firewall_issues_plan_until_failure_witness :
  (∀ hist c, c ∈ firewall_plan "9090" "11883" "15683" →
             returncode (shell good_env hist c) = 0) ∧
  returned (configure_firewall good_env "9090" "11883" "15683" empty_world) = true ∧
  cmds (world_of (configure_firewall good_env "9090" "11883" "15683" empty_world)) =
    ["sudo ufw allow 9090"; "sudo ufw allow 11883"; "sudo ufw allow 15683";
     "sudo ufw enable"].
Proof.
  assert (H : ∀ hist c, c ∈ firewall_plan "9090" "11883" "15683" →
                        returncode (shell good_env hist c) = 0) by reflexivity.
  split; [exact H |].
  destruct (firewall_issues_plan_until_failure good_env "9090" "11883" "15683" empty_world)
    as (_ & _ & _ & _ & _ & T).
  exact (T H).
Defined.

(** C7 as stated fails: when the first allow rule is refused, one command
    is issued, not four, and the process ends. *)
Lemma firewall_stops_at_refused_rule :
  let r := configure_firewall ufw_fails_env "9090" "11883" "15683" empty_world in
  cmds (world_of r) = ["sudo ufw allow 9090"] ∧
  cmds (world_of r) ≠ firewall_plan "9090" "11883" "15683" ∧
  returned r = false ∧ process_exit_code r = 1.
Proof. vm_compute. repeat split. discriminate. Qed.

(** ** The pipeline as a whole *)

Lemma bind_returned_inv {A B} (m : M A) (k : A → M B) w b w2 :
  (m ≫= k) w = Returned b w2 → ∃ a w1, m w = Returned a w1 ∧ k a w1 = Returned b w2.
Proof.
  rewrite bind_unfold. destruct (m w) as [a w1|? ?|? ?]; try discriminate. eauto.
Qed.

Lemma bind_after {A B} (m : M A) (k : A → M B) w a w1 b w2 :
  m w = Returned a w1 → (m ≫= k) w = Returned b w2 → k a w1 = Returned b w2.
Proof. intros E. rewrite bind_unfold, E. trivial. Qed.

Lemma moved_trans f g p q w w1 w2 :
  moved f p w w1 → moved g q w1 w2 → moved (g ∘ f) (p ++ q) w w2.
Proof.
  intros (F1 & I1 & C1) (F2 & I2 & C2). unfold moved.
  rewrite F2, F1, I2, I1, C2, C1, app_assoc. repeat split.
Qed.

Section Pipeline.

Variable env : Env.

Lemma run_command_returned c d w a w' :
  run_command env c d w = Returned a w' → moved id [c] w w'.
Proof.
  rewrite run_command_cases. cbv zeta. case_decide as H.
  - intros [= _ <-]. repeat split.
  - destruct (decode _); discriminate.
Qed.

Lemma pre_install_check_returns w :
  ∃ w', pre_install_check env w = Returned tt w' ∧ moved id ["docker --version"] w w'.
Proof.
  unfold pre_install_check. unfold_prims. mstep.
  destruct (_ <? _)%N, (_ <? _)%N; mstep; case_decide; eexists;
    (split; [reflexivity | repeat split]).
Qed.

Lemma install_docker_returned w a w' :
  install_docker env w = Returned a w' →
  moved id [ "sudo apt install -y docker.io";
             "sudo systemctl start docker && sudo systemctl enable docker";
             "sudo groupadd docker || true";
             "sudo usermod -aG docker " +:+ getuser env ] w w'.
Proof.
  unfold install_docker. intros H.
  apply bind_returned_inv in H as (? & w1 & H1%run_command_returned & H).
  apply bind_returned_inv in H as (? & w2 & H2%run_command_returned & H).
  apply bind_returned_inv in H as (? & w3 & H3%run_command_returned & H).
  apply run_command_returned in H.
  exact (moved_trans _ _ _ _ _ _ _ H1 (moved_trans _ _ _ _ _ _ _ H2
           (moved_trans _ _ _ _ _ _ _ H3 H))).
Qed.

Lemma backup_returns w :
  ∃ w', backup_existing_compose_file w = Returned tt w' ∧ moved backed_up [] w w'.
Proof.
  unfold moved, backed_up. destruct (fs w !! compose_path) as [content|] eqn:E.
  - rewrite (backup_present w content E). eexists. split; [reflexivity |].
    world_simpl. rewrite app_nil_r. repeat split.
  - rewrite (backup_absent w E). eexists. split; [reflexivity |].
    rewrite app_nil_r. repeat split.
Qed.

Lemma deploy_returned h m c w a w' :
  install_thingsboard_docker_compose env h m c w = Returned a w' →
  moved (<[compose_path := compose_file_content h m c]>) ["docker-compose up -d"] w w'.
Proof.
  unfold install_thingsboard_docker_compose. intros H.
  apply bind_returned_inv in H as (? & w1 & H1 & H%run_command_returned).
  unfold write_file in H1. injection H1 as H1. subst w1.
  destruct H as (F & I & C). repeat split; assumption.
Qed.

Lemma configure_firewall_returned h m c w a w' :
  configure_firewall env h m c w = Returned a w' → moved id (firewall_plan h m c) w w'.
Proof.
  rewrite configure_firewall_run_all. intros H.
  match type of H with run_all env ?s w = _ =>
    destruct (run_all_spec env s w) as (Hc & Hf & Hi & Hr & _) end.
  cbv zeta in *. rewrite H in Hc, Hf, Hi, Hr. cbn [world_of returned] in *.
  change (_.*1) with (firewall_plan h m c) in Hc, Hr.
  rewrite issued_all_ok in Hc by (symmetry; exact Hr). repeat split; assumption.
Qed.

Lemma verify_installation_returned w a w' :
  verify_installation env w = Returned a w' → moved id ["docker-compose ps"] w w'.
Proof.
  unfold verify_installation. intros H.
  apply bind_returned_inv in H as (? & w1 & H1%run_command_returned & H).
  unfold logger_info, logger in H. injection H as H. subst w'.
  destruct H1 as (F & I & C). repeat split; assumption.
Qed.

Lemma send_notification_moved email success w :
  ∃ w', send_notification env email success w = Returned tt w' ∧ moved id [] w w'.
Proof.
  destruct (send_notification_returns env email success w) as (w' & E & F & C & I & _).
  exists w'. split; [exact E |]. unfold moved. rewrite app_nil_r. repeat split; assumption.
Qed.

(** A full installation that returns has read exactly three lines, has
    issued exactly the installation plan, and has left the rendered
    descriptor (and the backup, if there was a descriptor) on disk. *)
Lemma full_installation_returned a b c rest w r w' :
  full_installation env (set_stdin (a :: b :: c :: rest) w) = Returned r w' →
  let h := or_default a "8080" in
  let m := or_default b "1883" in
  let p := or_default c "5683" in
  fs w' = <[compose_path := compose_file_content h m p]> (backed_up (fs w)) ∧
  stdin w' = rest ∧
  cmds w' = cmds w ++ installation_plan (getuser env) h m p.
Proof.
  unfold full_installation. intros H.
  destruct (pre_install_check_returns (set_stdin (a :: b :: c :: rest) w))
    as (w1 & E1 & M1).
  apply (bind_after _ _ _ _ _ _ _ E1) in H.
  apply bind_returned_inv in H as (? & w2 & M2%run_command_returned & H).
  apply bind_returned_inv in H as (? & w3 & M3%install_docker_returned & H).
  destruct (backup_returns w3) as (w4 & E4 & M4).
  apply (bind_after _ _ _ _ _ _ _ E4) in H.
  pose proof (moved_trans _ _ _ _ _ _ _ M1 (moved_trans _ _ _ _ _ _ _ M2
               (moved_trans _ _ _ _ _ _ _ M3 M4))) as (F & I & C).
  world_simpl in I. world_simpl in C. world_simpl in F.
  apply bind_returned_inv in H as ([[h m] p] & w5 & E5 & H).
  assert (Ew : w4 = set_stdin (a :: b :: c :: rest) w4)
    by (destruct w4; cbn in I; subst; reflexivity).
  rewrite Ew, get_user_config_reads in E5. injection E5 as <- <- <- <-.
  apply bind_returned_inv in H as (? & w6 & M6%deploy_returned & H).
  apply bind_returned_inv in H as (? & w7 & M7%configure_firewall_returned & H).
  apply bind_returned_inv in H as (? & w8 & M8%verify_installation_returned & H).
  destruct (send_notification_moved "admin@example.com" true w8) as (w9 & E9 & M9).
  rewrite E9 in H. injection H as _ <-.
  pose proof (moved_trans _ _ _ _ _ _ _ M6 (moved_trans _ _ _ _ _ _ _ M7
               (moved_trans _ _ _ _ _ _ _ M8 M9))) as (F' & I' & C').
  world_simpl in F'. world_simpl in I'. world_simpl in C'.
  cbv zeta. rewrite F', I', C', F, C. unfold installation_plan. cbn [compose id].
  rewrite <- !app_assoc. repeat split.
Qed.

End Pipeline.

(** C10: three non-empty answers are returned as they were typed, whatever
    they are; the descriptor's port entries are these texts followed by
    the container ports; the firewall commands are [sudo ufw allow]
    followed by these texts; and a full installation that returns has
    written that descriptor and issued those commands. *)
Theorem ports_pass_through_verbatim (env : Env) (w : World) (a b c : string)
    (rest : list string) :
  a ≠ "" → b ≠ "" → c ≠ "" →
  no_newline a = true → no_newline b = true → no_newline c = true →
  (∃ w', get_user_config (set_stdin (a :: b :: c :: rest) w) = Returned (a, b, c) w') ∧
  port_mappings (compose_file_content a b c) =
    [a +:+ ":8080"; b +:+ ":1883"; c +:+ ":5683/udp"] ∧
  cmds (world_of (configure_firewall env a b c w)) =
    cmds w ++ issued env (cmds w)
      ["sudo ufw allow " +:+ a; "sudo ufw allow " +:+ b; "sudo ufw allow " +:+ c;
       "sudo ufw enable"] ∧
  (∀ r w', full_installation env (set_stdin (a :: b :: c :: rest) w) = Returned r w' →
     fs w' !! compose_path = Some (compose_file_content a b c) ∧
     cmds w' = cmds w ++
       ["docker --version"; "sudo apt update && sudo apt upgrade -y";
        "sudo apt install -y docker.io";
        "sudo systemctl start docker && sudo systemctl enable docker";
        "sudo groupadd docker || true"; "sudo usermod -aG docker " +:+ getuser env;
        "docker-compose up -d";
        "sudo ufw allow " +:+ a; "sudo ufw allow " +:+ b; "sudo ufw allow " +:+ c;
        "sudo ufw enable"; "docker-compose ps"]).
Proof.
  intros Ha Hb Hc Na Nb Nc. split; [| split; [| split]].
  - rewrite get_user_config_reads, !or_default_given by assumption.
    eexists. reflexivity.
  - apply port_mappings_rendered; assumption.
  - rewrite configure_firewall_run_all.
    match goal with |- context [run_all env ?s w] =>
      destruct (run_all_spec env s w) as (Hcmds & _) end.
    exact Hcmds.
  - intros r w' H. apply full_installation_returned in H. cbv zeta in H.
    rewrite !or_default_given in H by assumption. destruct H as (F & _ & C).
    split; [rewrite F; apply lookup_insert_eq | exact C].
Qed.

Lemma ports_pass_through_verbatim_witness :
  let w := set_stdin ["http"; "0"; "99999"] empty_world in
  "http" ≠ "" ∧ "0" ≠ "" ∧ "99999" ≠ "" ∧
  (∃ w', get_user_config w = Returned ("http", "0", "99999") w') ∧
  port_mappings (compose_file_content "http" "0" "99999") =
    ["http:8080"; "0:1883"; "99999:5683/udp"] ∧
  fs (world_of (full_installation good_env w)) !! compose_path =
    Some (compose_file_content "http" "0" "99999").
Proof.
  pose proof (ports_pass_through_verbatim good_env empty_world "http" "0" "99999" []
                ltac:(discriminate) ltac:(discriminate) ltac:(discriminate)
                eq_refl eq_refl eq_refl) as (T1 & T2 & _ & T4).
  split; [discriminate |]. split; [discriminate |]. split; [discriminate |].
  split; [exact T1 |]. split; [exact T2 |].
  assert (E : full_installation good_env (set_stdin ["http"; "0"; "99999"] empty_world) =
              Returned tt (world_of (full_installation good_env
                                       (set_stdin ["http"; "0"; "99999"] empty_world))))
    by (vm_compute; reflexivity).
  exact (proj1 (T4 _ _ E)).
Defined.

(** ** What the installation never reads *)

Lemma is_bind {A B} (m : M A) (k : A → M B) :
  ignores_stdin m → (∀ a, ignores_stdin (k a)) → ignores_stdin (m ≫= k).
Proof.
  intros Hm Hk i w. rewrite !bind_unfold, Hm.
  destruct (m w) as [a w1|? ?|? ?]; cbn; [apply Hk | reflexivity ..].
Qed.

Lemma is_ret {A} (a : A) : ignores_stdin (mret a).
Proof. intros i w. reflexivity. Qed.

Lemma is_logger l msg : ignores_stdin (logger l msg).
Proof. intros i w. reflexivity. Qed.

Lemma is_exit {A} code : ignores_stdin (exit (A:=A) code).
Proof. intros i w. reflexivity. Qed.

Lemma is_raise {A} e : ignores_stdin (raise (A:=A) e).
Proof. intros i w. reflexivity. Qed.

Lemma is_os_path_exists path : ignores_stdin (os_path_exists path).
Proof. intros i w. reflexivity. Qed.

Lemma is_os_rename src dst : ignores_stdin (os_rename src dst).
Proof. intros i w. unfold os_rename. cbn [fs set_stdin]. destruct (fs w !! src); reflexivity. Qed.

Lemma is_write_file path content : ignores_stdin (write_file path content).
Proof. intros i w. reflexivity. Qed.

Lemma is_if {A} (b : bool) (m1 m2 : M A) :
  ignores_stdin m1 → ignores_stdin m2 → ignores_stdin (if b then m1 else m2).
Proof. destruct b; auto. Qed.

Lemma is_decide {A} (P : Prop) `{Decision P} (m1 m2 : M A) :
  ignores_stdin m1 → ignores_stdin m2 → ignores_stdin (if decide P then m1 else m2).
Proof. destruct (decide P); auto. Qed.

Lemma is_try_except {A} (body : M A) (handler : exn → M A) :
  ignores_stdin body → (∀ e, ignores_stdin (handler e)) →
  ignores_stdin (try_except body handler).
Proof.
  intros Hb Hh i w. unfold try_except. rewrite Hb.
  destruct (body w) as [? ?|? ?|e w1]; cbn; [reflexivity .. | apply Hh].
Qed.

Lemma is_finally {A} (body : M A) (cleanup : M unit) :
  ignores_stdin body → ignores_stdin cleanup → ignores_stdin (finally body cleanup).
Proof.
  intros Hb Hc i w. unfold finally. rewrite Hb.
  destruct (body w) as [? ?|? ?|? ?]; cbn [outcome_map];
    (apply is_bind; [exact Hc | intros _]);
    [apply is_ret | apply is_exit | apply is_raise].
Qed.

Section Unread.

Variable env : Env.

Lemma is_subprocess_run c : ignores_stdin (subprocess_run env c).
Proof. intros i w. reflexivity. Qed.

Lemma is_smtp_call c : ignores_stdin (smtp_call env c).
Proof.
  intros i w. unfold smtp_call. destruct (smtp env c); [reflexivity |].
  destruct c; reflexivity.
Qed.

Ltac is_step :=
  repeat first
    [ apply is_logger | apply is_ret | apply is_exit | apply is_raise
    | apply is_os_path_exists | apply is_os_rename | apply is_write_file | apply is_subprocess_run
    | apply is_smtp_call | apply is_if | apply is_decide
    | apply is_try_except; [| intros ?] | apply is_finally
    | apply is_bind; [| intros ?] ].

Lemma is_run_command c d : ignores_stdin (run_command env c d).
Proof.
  unfold run_command, logger_info, logger_error. is_step.
  destruct (decode _); is_step.
Qed.

Lemma is_pre_install_check : ignores_stdin (pre_install_check env).
Proof. unfold pre_install_check, logger_info, logger_warning. is_step. Qed.

Lemma is_update_and_upgrade_system : ignores_stdin (update_and_upgrade_system env).
Proof. apply is_run_command. Qed.

Lemma is_install_docker : ignores_stdin (install_docker env).
Proof. unfold install_docker. repeat first [apply is_run_command | apply is_bind; [| intros ?]]. Qed.

Lemma is_backup : ignores_stdin backup_existing_compose_file.
Proof. unfold backup_existing_compose_file, logger_info. is_step. Qed.

Lemma is_deploy h m c : ignores_stdin (install_thingsboard_docker_compose env h m c).
Proof.
  unfold install_thingsboard_docker_compose.
  apply is_bind; [apply is_write_file | intros _; apply is_run_command].
Qed.

Lemma is_configure_firewall h m c : ignores_stdin (configure_firewall env h m c).
Proof.
  unfold configure_firewall.
  repeat first [apply is_run_command | apply is_bind; [| intros ?]].
Qed.

Lemma is_verify_installation : ignores_stdin (verify_installation env).
Proof.
  unfold verify_installation.
  apply is_bind; [apply is_run_command | intros _; apply is_logger].
Qed.

Lemma is_send_notification email success : ignores_stdin (send_notification env email success).
Proof.
  unfold send_notification, with_SMTP, logger_info, logger_error. cbv zeta. is_step.
Qed.

Lemma is_before_prompts : ignores_stdin (before_prompts env).
Proof.
  unfold before_prompts.
  apply is_bind; [apply is_pre_install_check | intros _].
  apply is_bind; [apply is_update_and_upgrade_system | intros _].
  apply is_bind; [apply is_install_docker | intros _]. apply is_backup.
Qed.

Lemma is_after_prompts h m c : ignores_stdin (after_prompts env h m c).
Proof.
  unfold after_prompts.
  apply is_bind; [apply is_deploy | intros _].
  apply is_bind; [apply is_configure_firewall | intros _].
  apply is_bind; [apply is_verify_installation | intros _]. apply is_send_notification.
Qed.

Lemma full_installation_around_prompts w :
  full_installation env w =
  (before_prompts env;; '(h, m, c) ← get_user_config; after_prompts env h m c) w.
Proof.
  unfold full_installation, before_prompts, after_prompts. rewrite !bind_unfold.
  destruct (pre_install_check env w) as [? w1|? ?|? ?]; [| reflexivity ..].
  rewrite !bind_unfold.
  destruct (update_and_upgrade_system env w1) as [? w2|? ?|? ?]; [| reflexivity ..].
  rewrite !bind_unfold.
  destruct (install_docker env w2) as [? w3|? ?|? ?]; reflexivity.
Qed.

Lemma world_of_outcome_map {A} f (r : outcome A) :
  world_of (outcome_map f r) = f (world_of r).
Proof. destruct r; reflexivity. Qed.

Lemma exit_code_outcome_map {A} f (r : outcome A) :
  process_exit_code (outcome_map f r) = process_exit_code r.
Proof. destruct r; reflexivity. Qed.

Lemma returned_outcome_map {A} f (r : outcome A) :
  returned (outcome_map f r) = returned r.
Proof. destruct r; reflexivity. Qed.

(** Whatever follows the three port answers on standard input, the run is
    one and the same outcome [r0], with the unread lines put back. *)
Lemma full_installation_unread a b c w :
  ∃ r0 : outcome unit, ∀ rest, ∃ l,
    full_installation env (set_stdin (a :: b :: c :: rest) w) =
    outcome_map (set_stdin l) r0 ∧
    (returned r0 = true → l = rest).
Proof.
  destruct (before_prompts env w) as [[] w1|code w1|e w1] eqn:E.
  - exists (after_prompts env (or_default a "8080") (or_default b "1883") (or_default c "5683")
              (set_stdout (stdout w1 ++
                 ["[PROMPT] Enter HTTP port for ThingsBoard (default: 8080): ";
                  "[PROMPT] Enter MQTT port (default: 1883): ";
                  "[PROMPT] Enter CoAP port (default: 5683): "]) w1)).
    intros rest. exists rest. split; [| reflexivity].
    rewrite full_installation_around_prompts, bind_unfold, is_before_prompts, E.
    cbn [outcome_map]. rewrite bind_unfold, get_user_config_reads.
    apply is_after_prompts.
  - exists (Exited code w1). intros rest. exists (a :: b :: c :: rest).
    split; [| discriminate].
    rewrite full_installation_around_prompts, bind_unfold, is_before_prompts, E.
    reflexivity.
  - exists (Raised e w1). intros rest. exists (a :: b :: c :: rest).
    split; [| discriminate].
    rewrite full_installation_around_prompts, bind_unfold, is_before_prompts, E.
    reflexivity.
Qed.

End Unread.

(** C1 (as the code has it): a full installation reads the three port
    answers and nothing else.  Whatever lines follow them on standard
    input, a tier answer included, the files, commands, log, mail and exit
    code of the run are the same; and when the run returns, the following
    lines are still unread and the descriptor on disk is the rendering of
    the three ports alone. *)
Theorem descriptor_ignores_tier (env : Env) (w : World) (a b c : string)
    (rest rest' : list string) :
  let r := full_installation env (set_stdin (a :: b :: c :: rest) w) in
  let r' := full_installation env (set_stdin (a :: b :: c :: rest') w) in
  fs (world_of r) = fs (world_of r') ∧
  cmds (world_of r) = cmds (world_of r') ∧
  log (world_of r) = log (world_of r') ∧
  outbox (world_of r) = outbox (world_of r') ∧
  stdout (world_of r) = stdout (world_of r') ∧
  process_exit_code r = process_exit_code r' ∧
  (returned r = true →
   stdin (world_of r) = rest ∧
   fs (world_of r) !! compose_path =
     Some (compose_file_content (or_default a "8080") (or_default b "1883")
                                (or_default c "5683"))).
Proof.
  intros r r'. subst r r'.
  destruct (full_installation_unread env a b c w) as (r0 & H).
  destruct (H rest) as (l & E & Hl). destruct (H rest') as (l' & E' & _).
  split; [| split; [| split; [| split; [| split; [| split]]]]].
  1-5: rewrite E, E', !world_of_outcome_map; reflexivity.
  - rewrite E, E', !exit_code_outcome_map. reflexivity.
  - intros Hr.
    destruct (full_installation env (set_stdin (a :: b :: c :: rest) w))
      as [[] w'|? ?|? ?] eqn:Ef; try discriminate.
    apply full_installation_returned in Ef. cbv zeta in Ef.
    destruct Ef as (F & I & _). cbn [world_of]. split; [exact I |].
    rewrite F. apply lookup_insert_eq.
Qed.

Lemma descriptor_ignores_tier_witness :
  let r := full_installation good_env
             (set_stdin ["9090"; ""; ""; "prod"] empty_world) in
  returned r = true ∧
  stdin (world_of r) = ["prod"] ∧
  fs (world_of r) !! compose_path = Some (compose_file_content "9090" "1883" "5683").
Proof.
  assert (H : returned (full_installation good_env
                          (set_stdin ["9090"; ""; ""; "prod"] empty_world)) = true)
    by (vm_compute; reflexivity).
  split; [exact H |].
  destruct (descriptor_ignores_tier good_env empty_world "9090" "" "" ["prod"] ["dev"])
    as (_ & _ & _ & _ & _ & _ & T).
  exact (T H).
Defined.

(** C1 as stated fails: the production and the development limits differ,
    yet the installation writes the same descriptor after either answer,
    the descriptor names neither limit, and the tier answer is still on
    standard input when the installation has returned. *)
Lemma descriptor_same_for_both_tiers :
  let run tier := world_of (full_installation good_env
                              (set_stdin ["9090"; "11883"; "15683"; tier] empty_world)) in
  let descriptor := compose_file_content "9090" "11883" "15683" in
  (∃ w', configure_environment (set_stdin ["prod"] empty_world) = Returned prod_limits w') ∧
  (∃ w', configure_environment (set_stdin ["dev"] empty_world) = Returned dev_limits w') ∧
  prod_limits ≠ dev_limits ∧
  fs (run "prod") = fs (run "dev") ∧
  fs (run "prod") !! compose_path = Some descriptor ∧
  fs (run "dev") !! compose_path = Some descriptor ∧
  occurs "JAVA_OPTS" descriptor = false ∧
  occurs "DB_POOL_SIZE" descriptor = false ∧
  occurs "-Xms512m -Xmx1024m" descriptor = false ∧
  occurs "-Xms256m -Xmx512m" descriptor = false ∧
  stdin (run "prod") = ["prod"] ∧ stdin (run "dev") = ["dev"].
Proof.
  cbv zeta. split; [| split; [| split]].
  - rewrite configure_environment_reads. eexists. reflexivity.
  - rewrite configure_environment_reads. eexists. reflexivity.
  - intros H. apply (f_equal (λ m, m !! "DB_POOL_SIZE")) in H.
    vm_compute in H. discriminate.
  - vm_compute. repeat split.
Qed.

(** ** The menu loop *)

Lemma ss_bind {A B} (m : M A) (k : A → M B) :
  stdin_shrinks m → (∀ a, stdin_shrinks (k a)) → stdin_shrinks (m ≫= k).
Proof.
  intros Hm Hk w. rewrite bind_unfold. specialize (Hm w).
  destruct (m w) as [a w1|? ?|? ?]; cbn in *; [| assumption ..].
  etrans; [apply Hk | exact Hm].
Qed.

Lemma set_stdin_same w : set_stdin (stdin w) w = w.
Proof. destruct w; reflexivity. Qed.

Lemma ignores_stdin_keeps {A} (m : M A) w :
  ignores_stdin m → stdin (world_of (m w)) = stdin w.
Proof.
  intros H. rewrite <- (set_stdin_same w) at 1. rewrite H, world_of_outcome_map.
  reflexivity.
Qed.

Lemma ss_ignores {A} (m : M A) : ignores_stdin m → stdin_shrinks m.
Proof. intros H w. rewrite ignores_stdin_keeps by assumption. reflexivity. Qed.

Lemma ss_input prompt : stdin_shrinks (input prompt).
Proof. intros [f [|x i] o l c ob]; cbn; lia. Qed.

Lemma ss_get_user_config : stdin_shrinks get_user_config.
Proof.
  unfold get_user_config.
  repeat first [apply ss_input | apply ss_bind; [| intros ?]].
  apply ss_ignores, is_ret.
Qed.

Section Menu.

Variable env : Env.

Lemma ss_full_installation : stdin_shrinks (full_installation env).
Proof.
  intros w. rewrite full_installation_around_prompts. revert w.
  apply ss_bind; [apply ss_ignores, is_before_prompts | intros _].
  apply ss_bind; [apply ss_get_user_config | intros [[h m] c]].
  apply ss_ignores, is_after_prompts.
Qed.

Lemma menu_prompt_reads w :
  match menu_prompt env w with
  | Returned _ w' => S (length (stdin w')) = length (stdin w) ∧ cmds w' = cmds w
  | Exited _ _ => False
  | Raised e w' => e = EOFError ∧ stdin w' = [] ∧ cmds w' = cmds w
  end.
Proof.
  destruct w as [f [|x i] o l c ob]; vm_compute; auto.
Qed.

(** The loop always ends within its bound. *)
Lemma main_menu_loop_runs fuel w :
  (length (stdin w) < fuel)%nat → is_Some (main_menu_loop env fuel w).
Proof.
  revert w. induction fuel as [|fuel IH]; intros w Hlen; [lia |].
  cbn [main_menu_loop].
  pose proof (menu_prompt_reads w) as Hp.
  destruct (menu_prompt env w) as [choice w1|? ?|? ?]; [| contradiction | eauto].
  destruct Hp as [Hs _].
  assert (Hagain : ∀ m : M unit, stdin_shrinks m →
            is_Some (match m w1 with
                     | Returned _ w' => main_menu_loop env fuel w'
                     | Exited c w' => Some (Exited c w')
                     | Raised e w' => Some (Raised e w')
                     end)).
  { intros m Hm. specialize (Hm w1).
    destruct (m w1) as [? w2|? ?|? ?]; cbn in Hm; [apply IH; lia | eauto ..]. }
  repeat case_decide; try (eexists; reflexivity).
  - apply Hagain, ss_full_installation.
  - apply Hagain, ss_ignores, is_verify_installation.
  - apply Hagain, ss_ignores, is_configure_firewall.
  - apply Hagain, ss_ignores, is_send_notification.
  - apply (Hagain (print _)). intros w'. reflexivity.
Qed.

Lemma main_menu_runs w : is_Some (main_menu env w).
Proof. apply main_menu_loop_runs. lia. Qed.


End Menu.

(** ** A run to the end *)

Section Completion.

Variable env : Env.

Hypothesis commands_succeed : ∀ hist c, returncode (shell env hist c) = 0.












End Completion.

(** ** The error policy *)

(** C2 (where the code departs from it): on a command that exits non-zero
    with a captured stderr that is not UTF-8, [run_command] logs the
    description and the command, and then [e.stderr.decode()] raises
    UnicodeDecodeError: the stderr is never logged and [exit(1)] is never
    reached.  Here the firewall of a host answering in Latin-1 refuses
    [sudo ufw enable]; in a full installation on that host the exception
    leaves through the first [ufw] command, with no record of its stderr
    and no mail sent. *)
Theorem undecodable_stderr_escapes_the_runner :
  let w := set_stdin [""; ""; ""] empty_world in
  let r := run_command latin1_env "sudo ufw enable" "Enabling the firewall" w in
  let r' := full_installation latin1_env w in
  returncode (shell latin1_env (cmds w) "sudo ufw enable") = 1 ∧
  decode latin1_stderr = None ∧
  r = Raised (UnicodeDecodeError latin1_stderr)
        (ran_undecodable "sudo ufw enable" "Enabling the firewall" w) ∧
  log (world_of r) = [(INFO, "Enabling the firewall");
                      (ERROR, "Failed to execute: sudo ufw enable")] ∧
  (∀ code w', r ≠ Exited code w') ∧
  (∃ w', r' = Raised (UnicodeDecodeError latin1_stderr) w' ∧
         last (cmds w') = Some "sudo ufw allow 8080" ∧
         last (log w') = Some (ERROR, "Failed to execute: sudo ufw allow 8080") ∧
         ((ERROR, latin1_stderr) ∉ log w') ∧
         outbox w' = []).
Proof.
  cbv zeta. split; [reflexivity |]. split; [reflexivity |].
  split; [vm_compute; reflexivity |]. split; [vm_compute; reflexivity |].
  split; [intros code w'; vm_compute; discriminate |].
  eexists. split; [vm_compute; reflexivity |]. world_simpl.
  split; [reflexivity |]. split; [reflexivity |]. split; [| reflexivity].
  rewrite !elem_of_cons, elem_of_nil. intros H.
  repeat destruct H as [H|H]; try discriminate H. exact H.
Qed.

(** A full installation whose firewall commands fail stops at the first of
    them: nothing after it is issued, no mail is sent. *)
Example pipeline_halts_at_ufw :
  let r := full_installation ufw_fails_env (set_stdin [""; ""; ""] empty_world) in
  process_exit_code r = 1 ∧
  cmds (world_of r) =
    ["docker --version"; "sudo apt update && sudo apt upgrade -y";
     "sudo apt install -y docker.io";
     "sudo systemctl start docker && sudo systemctl enable docker";
     "sudo groupadd docker || true"; "sudo usermod -aG docker ubuntu";
     "docker-compose up -d"; "sudo ufw allow 8080"] ∧
  outbox (world_of r) = [].
Proof. vm_compute. repeat split. Qed.

(** From the menu: a failed command in option 2 ends the process at once;
    the choices still on standard input are never read. *)
Example menu_halts_on_failure :
  ∃ w', main_menu bad_env (set_stdin ["2"; "4"; "5"] empty_world) = Some (Exited 1 w') ∧
        stdin w' = ["4"; "5"] ∧ cmds w' = ["docker-compose ps"] ∧ outbox w' = [].
Proof. eexists. vm_compute. repeat split. Qed.

(** * Further properties of the script *)

(** ** The command runner, on any command *)



(** ** The pre-installation check *)

(** X2: the pre-installation check is advisory.  It always returns,
    whatever memory, disk and the Docker probe say; the only command it
    issues is the probe; it leaves files and standard input alone; and
    its log is the opening record, a memory warning exactly when total
    memory is under 2 GiB, a disk warning exactly when free space is under
    10 GiB, and one record on Docker. *)
Theorem pre_install_check_is_advisory (env : Env) (w : World) :
  ∃ w', pre_install_check env w = Returned tt w' ∧
        cmds w' = cmds w ++ ["docker --version"] ∧
        fs w' = fs w ∧ stdin w' = stdin w ∧ outbox w' = outbox w ∧
        log w' = log w ++
          [(INFO, "Performing pre-installation checks...")] ++
          (if (virtual_memory_total env <? 2 * GiB)%N
           then [(WARNING, "[WARNING] Available memory is " +:+
                    format_2f_GiB (virtual_memory_total env) +:+
                    " GB. Minimum 2GB recommended.")]
           else []) ++
          (if (disk_usage_free env <? 10 * GiB)%N
           then [(WARNING, "[WARNING] Available disk space is " +:+
                    format_2f_GiB (disk_usage_free env) +:+
                    " GB. Minimum 10GB recommended.")]
           else []) ++
          [(INFO, if decide (returncode (shell env (cmds w) "docker --version") = 0)
                  then "[INFO] Docker is already installed."
                  else "[INFO] Docker is not installed. It will be installed.")].
Proof.
  unfold pre_install_check. unfold_prims. mstep.
  destruct (_ <? _)%N, (_ <? _)%N; mstep; case_decide; eexists;
    (split; [reflexivity |]); world_simpl; rewrite <- ?app_assoc; repeat split.
Qed.

(** ** Installing Docker *)

Lemma install_docker_run_all env w :
  install_docker env w =
  run_all env
    [ ("sudo apt install -y docker.io", "Installing Docker");
      ("sudo systemctl start docker && sudo systemctl enable docker",
       "Starting and enabling Docker service");
      ("sudo groupadd docker || true", "Creating Docker group (if not exists)");
      ("sudo usermod -aG docker " +:+ getuser env,
       "Adding current user to Docker group") ] w.
Proof.
  unfold install_docker. cbn [run_all]. rewrite !bind_unfold.
  destruct (run_command env _ _ w) as [? w1|? ?|? ?]; [| reflexivity ..].
  rewrite !bind_unfold.
  destruct (run_command env _ _ w1) as [? w2|? ?|? ?]; [| reflexivity ..].
  rewrite !bind_unfold.
  destruct (run_command env _ _ w2) as [? w3|? ?|? ?]; [| reflexivity ..].
  symmetry. apply bind_ret_unit.
Qed.

(** X3: [install_docker] issues install, start-and-enable, group creation
    and group membership for the current login name, in that order,
    stopping after the first that exits non-zero; it returns exactly when
    all four succeeded, and otherwise the process ends with status 1. *)
Theorem install_docker_follows_plan (env : Env) (w : World) :
  let plan := docker_plan (getuser env) in
  let r := install_docker env w in
  cmds (world_of r) = cmds w ++ issued env (cmds w) plan ∧
  issued env (cmds w) plan `prefix_of` plan ∧
  returned r = all_ok env (cmds w) plan ∧
  (returned r = true → cmds (world_of r) = cmds w ++ plan) ∧
  (returned r = false → process_exit_code r = 1).
Proof.
  intros plan r. subst r. rewrite install_docker_run_all.
  match goal with |- context [run_all env ?s w] =>
    destruct (run_all_spec env s w) as (Hc & _ & _ & Hr & He) end.
  cbv zeta in *. change (_.*1) with plan in Hc, Hr.
  split; [exact Hc |]. split; [apply issued_prefix |]. split; [exact Hr |].
  split; [| exact He].
  intros Hret. rewrite Hc, issued_all_ok; [reflexivity |]. rewrite <- Hr. exact Hret.
Qed.

Lemma install_docker_follows_plan_witness :
  let r := install_docker good_env empty_world in
  returned r = true ∧
  cmds (world_of r) =
    ["sudo apt install -y docker.io";
     "sudo systemctl start docker && sudo systemctl enable docker";
     "sudo groupadd docker || true"; "sudo usermod -aG docker ubuntu"].
Proof.
  assert (H : returned (install_docker good_env empty_world) = true)
    by (vm_compute; reflexivity).
  split; [exact H |].
  destruct (install_docker_follows_plan good_env empty_world) as (_ & _ & _ & T & _).
  exact (T H).
Defined.

(** ** The prompts at the end of input *)

(** X4: [get_user_config] touches nothing but standard input and output.
    With three lines or more to read it takes exactly the first three,
    leaves the rest, and has written its three prompts in order; with
    fewer it raises EOFError, having used up the lines there were and
    written one prompt more than it got answers; it never ends the
    process. *)
Theorem get_user_config_at_end_of_input (w : World) :
  let r := get_user_config w in
  match r with
  | Returned (h, m, c) w' =>
      ∃ a b x, stdin w = a :: b :: x :: stdin w' ∧
               h = or_default a "8080" ∧ m = or_default b "1883" ∧
               c = or_default x "5683" ∧
               stdout w' = stdout w ++ port_prompts
  | Raised e w' =>
      e = EOFError ∧ (length (stdin w) < 3)%nat ∧ stdin w' = [] ∧
      stdout w' = stdout w ++ take (S (length (stdin w))) port_prompts
  | Exited _ _ => False
  end ∧
  fs (world_of r) = fs w ∧ cmds (world_of r) = cmds w ∧
  log (world_of r) = log w ∧ outbox (world_of r) = outbox w.
Proof.
  destruct w as [f [|a [|b [|x rest]]] o l c ob]; cbv zeta;
    unfold get_user_config; unfold_prims; mstep; cbn [length take port_prompts].
  - repeat split. lia.
  - rewrite <- app_assoc. repeat split. lia.
  - rewrite <- !app_assoc. repeat split. lia.
  - rewrite <- !app_assoc. split; [| repeat split]. exists a, b, x. repeat split.
Qed.

(** X5: [configure_environment] reads exactly one line and adds exactly
    one log record; its result is one of the two dictionaries; at the end
    of input it raises EOFError and logs nothing; it never ends the
    process, runs no command, touches no file and sends no mail. *)
Theorem configure_environment_at_end_of_input (w : World) :
  let r := configure_environment w in
  match r with
  | Returned limits w' =>
      ∃ answer, stdin w = answer :: stdin w' ∧
                limits = (if is_prod_any_case answer then prod_limits else dev_limits) ∧
                ∃ msg, log w' = log w ++ [(INFO, msg)]
  | Raised e w' => e = EOFError ∧ stdin w = [] ∧ stdin w' = [] ∧ log w' = log w
  | Exited _ _ => False
  end ∧
  fs (world_of r) = fs w ∧ cmds (world_of r) = cmds w ∧ outbox (world_of r) = outbox w.
Proof.
  destruct w as [f [|answer rest] o l c ob]; cbv zeta.
  - unfold configure_environment. unfold_prims. mstep. repeat split.
  - change {| fs := f; stdin := answer :: rest; stdout := o; log := l; cmds := c;
              outbox := ob |}
      with (set_stdin (answer :: rest)
              {| fs := f; stdin := []; stdout := o; log := l; cmds := c; outbox := ob |}).
    rewrite configure_environment_reads. world_simpl.
    split; [| repeat split]. exists answer. repeat split. eexists. reflexivity.
Qed.

(** ** The shape of the descriptor *)

(** X6: the descriptor is a fixed text of 28 lines with three slots.  For
    ports without a line break, lines 7, 8 and 9 (counting from 0) are the
    three port entries, and every other line is the same whatever the
    ports are. *)
Theorem descriptor_is_static_but_for_ports (h m c h' m' c' : string) :
  no_newline h = true → no_newline m = true → no_newline c = true →
  no_newline h' = true → no_newline m' = true → no_newline c' = true →
  let d := lines (compose_file_content h m c) in
  let d' := lines (compose_file_content h' m' c') in
  length d = 28%nat ∧
  d !! 7%nat = Some (port_line (h +:+ ":8080")) ∧
  d !! 8%nat = Some (port_line (m +:+ ":1883")) ∧
  d !! 9%nat = Some (port_line (c +:+ ":5683/udp")) ∧
  ∀ i : nat, i ≠ 7%nat → i ≠ 8%nat → i ≠ 9%nat → d !! i = d' !! i.
Proof.
  intros Hh Hm Hc Hh' Hm' Hc' d d'. subst d d'.
  rewrite !lines_compose_file_content by assumption.
  split; [reflexivity |]. split; [reflexivity |]. split; [reflexivity |].
  split; [reflexivity |]. intros i H7 H8 H9.
  do 28 (destruct i as [|i]; [first [reflexivity | contradiction] |]).
  reflexivity.
Qed.

Lemma descriptor_is_static_but_for_ports_witness :
  let d := lines (compose_file_content "9090" "11883" "15683") in
  let d' := lines (compose_file_content "80" "1883" "5683") in
  length d = 28%nat ∧ d !! 1%nat = d' !! 1%nat ∧ d !! 19%nat = d' !! 19%nat.
Proof.
  destruct (descriptor_is_static_but_for_ports "9090" "11883" "15683" "80" "1883" "5683"
              eq_refl eq_refl eq_refl eq_refl eq_refl eq_refl) as (L & _ & _ & _ & T).
  split; [exact L |]. split; apply T; discriminate.
Defined.

Lemma length_append (s t : string) :
  String.length (s +:+ t) = (String.length s + String.length t)%nat.
Proof. induction s as [|x s IH]; [reflexivity |]. rewrite append_cons. cbn. rewrite IH. reflexivity. Qed.

Lemma append_cancel_r (s s' t : string) : s +:+ t = s' +:+ t → s = s'.
Proof.
  intros H. assert (L : String.length s = String.length s').
  { apply (f_equal String.length) in H. rewrite !length_append in H. lia. }
  revert s' H L. induction s as [|x s IH]; intros [|x' s'] H L; try discriminate.
  - reflexivity.
  - rewrite !append_cons in H. injection H as -> H. f_equal. apply IH; [exact H |].
    cbn in L. lia.
Qed.

(** X7: the ports can be told from the descriptor.  For ports without a
    line break, two descriptors are the same text exactly when the three
    ports are the same. *)
Theorem descriptor_determines_ports (h m c h' m' c' : string) :
  no_newline h = true → no_newline m = true → no_newline c = true →
  no_newline h' = true → no_newline m' = true → no_newline c' = true →
  compose_file_content h m c = compose_file_content h' m' c' ↔
  h = h' ∧ m = m' ∧ c = c'.
Proof.
  intros Hh Hm Hc Hh' Hm' Hc'. split.
  - intros E. apply (f_equal port_mappings) in E.
    rewrite !port_mappings_rendered in E by assumption.
    injection E as E1 E2 E3.
    repeat split; eapply append_cancel_r; eassumption.
  - intros (-> & -> & ->). reflexivity.
Qed.

Lemma descriptor_determines_ports_witness :
  compose_file_content "9090" "1883" "5683" ≠ compose_file_content "8080" "1883" "5683".
Proof.
  intros E.
  apply (descriptor_determines_ports "9090" "1883" "5683" "8080" "1883" "5683"
           eq_refl eq_refl eq_refl eq_refl eq_refl eq_refl) in E.
  destruct E as (E & _). discriminate E.
Defined.

(** ** The notification, call by call *)

Lemma send_notification_calls env email success :
  send_notification env email success =
  try_except
    (with_SMTP env "smtp.example.com" 587
       (smtp_call env SMTP_starttls;;
        smtp_call env (SMTP_login "user" "password");;
        smtp_call env (SMTP_sendmail "noreply@example.com" [email]
                         (as_string (status_message email success))));;
     logger_info "[INFO] Notification email sent.")
    (λ e, logger_error ("[ERROR] Failed to send notification email: " +:+ str_exn e)).
Proof. reflexivity. Qed.

Lemma send_notification_effect env email success w :
  let w' := world_of (send_notification env email success w) in
  outbox w' = outbox w ++
    (if delivered env email success
     then [("noreply@example.com", [email], as_string (status_message email success))]
     else []) ∧
  ∃ text, log w' = log w ++
    [if delivered env email success && accepted env SMTP_quit
     then (INFO, "[INFO] Notification email sent.")
     else (ERROR, "[ERROR] Failed to send notification email: " +:+ text)].
Proof.
  cbv zeta. rewrite send_notification_calls.
  unfold delivered, accepted, with_SMTP, finally, try_except. unfold_prims. mstep.
  destruct (smtp env (SMTP_connect _ _)) as [t|];
    [cbn; rewrite app_nil_r; eauto |].
  destruct (smtp env SMTP_starttls) as [t|];
    [destruct (smtp env SMTP_quit); cbn; rewrite app_nil_r; eauto |].
  destruct (smtp env (SMTP_login _ _)) as [t|];
    [destruct (smtp env SMTP_quit); cbn; rewrite app_nil_r; eauto |].
  destruct (smtp env (SMTP_sendmail _ _ _)) as [t|];
    [destruct (smtp env SMTP_quit); cbn; rewrite app_nil_r; eauto |].
  destruct (smtp env SMTP_quit); cbn; eauto.
Qed.

(** X9: for a recipient address of printable ASCII without blanks, at
    most 74 characters long, a message leaves exactly when the server
    accepts the connection, STARTTLS, the login and the message, and then
    exactly one leaves, from noreply@example.com to that address; the log
    says it was sent only if the closing QUIT was accepted as well, so a
    refused QUIT is logged as a failure although the message has left. *)
Theorem notification_leaves_when_accepted (env : Env) (email : string) (success : bool)
    (w : World) :
  plain_address email = true →
  let w' := world_of (send_notification env email success w) in
  outbox w' = outbox w ++
    (if delivered env email success
     then [("noreply@example.com", [email], as_string (status_message email success))]
     else []) ∧
  ∃ text, log w' = log w ++
    [if delivered env email success && accepted env SMTP_quit
     then (INFO, "[INFO] Notification email sent.")
     else (ERROR, "[ERROR] Failed to send notification email: " +:+ text)].
Proof. intros _. apply send_notification_effect. Qed.

Lemma notification_leaves_when_accepted_witness :
  let w' := world_of (send_notification good_env "admin@example.com" true empty_world) in
  plain_address "admin@example.com" = true ∧
  outbox w' = [("noreply@example.com", ["admin@example.com"],
                as_string (status_message "admin@example.com" true))] ∧
  log w' = [(INFO, "[INFO] Notification email sent.")].
Proof.
  assert (H : plain_address "admin@example.com" = true) by reflexivity.
  split; [exact H |].
  destruct (notification_leaves_when_accepted good_env "admin@example.com" true
              empty_world H) as (T1 & text & T2).
  split; [exact T1 | exact T2].
Defined.

(** A server that accepts everything but the closing QUIT. *)
Example sent_but_logged_as_failed :
  let env := with_smtp (λ c, match c with SMTP_quit => Some "(421, b'closing')"
                                         | _ => None end) good_env in
  let w' := world_of (send_notification env "admin@example.com" true empty_world) in
  length (outbox w') = 1%nat ∧
  log w' = [(ERROR, "[ERROR] Failed to send notification email: (421, b'closing')")].
Proof. vm_compute. split; reflexivity. Qed.

(** ** What a run leaves as it was *)

Section Preserves.

Variable R : World → World → Prop.
Hypothesis R_refl : ∀ w, R w w.
Hypothesis R_trans : ∀ w1 w2 w3, R w1 w2 → R w2 w3 → R w1 w3.

Lemma pres_bind {A B} (m : M A) (k : A → M B) :
  preserves R m → (∀ a, preserves R (k a)) → preserves R (m ≫= k).
Proof.
  intros Hm Hk w. rewrite bind_unfold. specialize (Hm w).
  destruct (m w) as [a w1|? ?|? ?]; cbn in *; [| assumption ..].
  eapply R_trans; [exact Hm | apply Hk].
Qed.

Lemma pres_ret {A} (a : A) : preserves R (mret a).
Proof. intros w. apply R_refl. Qed.

Lemma pres_exit {A} code : preserves R (exit (A:=A) code).
Proof. intros w. apply R_refl. Qed.

Lemma pres_raise {A} e : preserves R (raise (A:=A) e).
Proof. intros w. apply R_refl. Qed.

Lemma pres_os_path_exists path : preserves R (os_path_exists path).
Proof. intros w. apply R_refl. Qed.

Lemma pres_if {A} (b : bool) (m1 m2 : M A) :
  preserves R m1 → preserves R m2 → preserves R (if b then m1 else m2).
Proof. destruct b; auto. Qed.

Lemma pres_decide {A} (P : Prop) `{Decision P} (m1 m2 : M A) :
  preserves R m1 → preserves R m2 → preserves R (if decide P then m1 else m2).
Proof. destruct (decide P); auto. Qed.

End Preserves.

Lemma same_files_refl w : same_files w w.
Proof. reflexivity. Qed.
Lemma same_files_trans w1 w2 w3 : same_files w1 w2 → same_files w2 w3 → same_files w1 w3.
Proof. unfold same_files. congruence. Qed.

Lemma same_outbox_refl w : same_outbox w w.
Proof. reflexivity. Qed.
Lemma same_outbox_trans w1 w2 w3 :
  same_outbox w1 w2 → same_outbox w2 w3 → same_outbox w1 w3.
Proof. unfold same_outbox. congruence. Qed.

Section Kept.

Variable env : Env.

(** Steps that keep the files. *)
Lemma sf_logger l msg : preserves same_files (logger l msg).
Proof. intros w. reflexivity. Qed.
Lemma sf_print text : preserves same_files (print text).
Proof. intros w. reflexivity. Qed.
Lemma sf_input prompt : preserves same_files (input prompt).
Proof. intros w. unfold input. destruct (stdin w); reflexivity. Qed.
Lemma sf_subprocess_run c : preserves same_files (subprocess_run env c).
Proof. intros w. reflexivity. Qed.

Ltac sf :=
  repeat first
    [ apply sf_logger | apply sf_print | apply sf_input | apply sf_subprocess_run
    | apply (pres_ret _ same_files_refl) | apply (pres_exit _ same_files_refl)
    | apply (pres_raise _ same_files_refl)
    | apply pres_if | apply pres_decide
    | apply (pres_bind _ same_files_trans); [| intros ?] ].

Lemma sf_run_command c d : preserves same_files (run_command env c d).
Proof.
  unfold run_command, logger_info, logger_error. sf. destruct (decode _); sf.
Qed.

Lemma sf_pre_install_check : preserves same_files (pre_install_check env).
Proof. unfold pre_install_check, logger_info, logger_warning. sf. Qed.

Lemma sf_install_docker : preserves same_files (install_docker env).
Proof.
  unfold install_docker.
  repeat first [apply sf_run_command | apply (pres_bind _ same_files_trans); [| intros ?]].
Qed.

Lemma sf_get_user_config : preserves same_files get_user_config.
Proof. unfold get_user_config. sf. Qed.

Lemma sf_configure_firewall h m c : preserves same_files (configure_firewall env h m c).
Proof.
  unfold configure_firewall.
  repeat first [apply sf_run_command | apply (pres_bind _ same_files_trans); [| intros ?]].
Qed.

Lemma sf_verify_installation : preserves same_files (verify_installation env).
Proof.
  unfold verify_installation, logger_info.
  apply (pres_bind _ same_files_trans); [apply sf_run_command | intros _; apply sf_logger].
Qed.

Lemma sf_send_notification email success :
  preserves same_files (send_notification env email success).
Proof.
  intros w. destruct (send_notification_returns env email success w) as (w' & -> & F & _).
  exact F.
Qed.

(** Steps that send no mail. *)
Lemma so_logger l msg : preserves same_outbox (logger l msg).
Proof. intros w. reflexivity. Qed.
Lemma so_input prompt : preserves same_outbox (input prompt).
Proof. intros w. unfold input. destruct (stdin w); reflexivity. Qed.
Lemma so_subprocess_run c : preserves same_outbox (subprocess_run env c).
Proof. intros w. reflexivity. Qed.
Lemma so_write_file path content : preserves same_outbox (write_file path content).
Proof. intros w. reflexivity. Qed.
Lemma so_os_rename src dst : preserves same_outbox (os_rename src dst).
Proof. intros w. unfold os_rename. destruct (fs w !! src); reflexivity. Qed.

Ltac so :=
  repeat first
    [ apply so_logger | apply so_input | apply so_subprocess_run | apply so_write_file
    | apply so_os_rename | apply (pres_os_path_exists _ same_outbox_refl)
    | apply (pres_ret _ same_outbox_refl) | apply (pres_exit _ same_outbox_refl)
    | apply (pres_raise _ same_outbox_refl)
    | apply pres_if | apply pres_decide
    | apply (pres_bind _ same_outbox_trans); [| intros ?] ].

Lemma so_run_command c d : preserves same_outbox (run_command env c d).
Proof.
  unfold run_command, logger_info, logger_error. so. destruct (decode _); so.
Qed.

Lemma so_provisioning : preserves same_outbox (provisioning env).
Proof.
  unfold provisioning.
  apply (pres_bind _ same_outbox_trans);
    [unfold pre_install_check, logger_info, logger_warning; so | intros _].
  apply (pres_bind _ same_outbox_trans); [apply so_run_command | intros _].
  apply (pres_bind _ same_outbox_trans);
    [unfold install_docker;
     repeat first [apply so_run_command
                  | apply (pres_bind _ same_outbox_trans); [| intros ?]]
    | intros _].
  apply (pres_bind _ same_outbox_trans);
    [unfold backup_existing_compose_file, logger_info; so | intros _].
  apply (pres_bind _ same_outbox_trans);
    [unfold get_user_config; so | intros [[h m] c]].
  apply (pres_bind _ same_outbox_trans);
    [unfold install_thingsboard_docker_compose;
     apply (pres_bind _ same_outbox_trans);
       [apply so_write_file | intros _; apply so_run_command]
    | intros _].
  apply (pres_bind _ same_outbox_trans);
    [unfold configure_firewall;
     repeat first [apply so_run_command
                  | apply (pres_bind _ same_outbox_trans); [| intros ?]]
    | intros _].
  unfold verify_installation, logger_info.
  apply (pres_bind _ same_outbox_trans); [apply so_run_command | intros _; apply so_logger].
Qed.

End Kept.

(** ** Mail and files after a full installation *)

Section AfterInstallation.

Variable env : Env.

Lemma full_installation_outbox w :
  let r := full_installation env w in
  outbox (world_of r) = outbox w ++
    (if returned r && delivered env "admin@example.com" true
     then [("noreply@example.com", ["admin@example.com"],
            as_string (status_message "admin@example.com" true))]
     else []).
Proof.
  cbv zeta. rewrite full_installation_split, bind_unfold.
  pose proof (so_provisioning env w) as Ho. unfold same_outbox in Ho.
  destruct (provisioning env w) as [[] w1|? w1|? w1]; cbn [world_of] in Ho.
  - destruct (send_notification_effect env "admin@example.com" true w1) as (Hs & _).
    destruct (send_notification_returns env "admin@example.com" true w1)
      as (w2 & E & _).
    rewrite E in *. cbn [world_of returned andb] in *. rewrite Hs, Ho. reflexivity.
  - cbn. rewrite app_nil_r. exact Ho.
  - cbn. rewrite app_nil_r. exact Ho.
Qed.

Lemma before_prompts_files w :
  match before_prompts env w with
  | Returned _ w1 => fs w1 = backed_up (fs w)
  | Exited _ w1 | Raised _ w1 => fs w1 = fs w
  end.
Proof.
  unfold before_prompts. rewrite bind_unfold.
  pose proof (sf_pre_install_check env w) as H1. unfold same_files in H1.
  destruct (pre_install_check env w) as [? w1|? ?|? ?]; cbn [world_of] in H1;
    [| exact H1 ..].
  rewrite bind_unfold.
  pose proof (sf_run_command env "sudo apt update && sudo apt upgrade -y"
                "Updating and upgrading Ubuntu" w1) as H2.
  unfold same_files in H2. fold (update_and_upgrade_system env) in H2.
  destruct (update_and_upgrade_system env w1) as [? w2|? ?|? ?]; cbn [world_of] in H2;
    [| congruence ..].
  rewrite bind_unfold.
  pose proof (sf_install_docker env w2) as H3. unfold same_files in H3.
  destruct (install_docker env w2) as [? w3|? ?|? ?]; cbn [world_of] in H3;
    [| congruence ..].
  destruct (backup_returns w3) as (w4 & -> & F & _). rewrite F. congruence.
Qed.

Lemma after_prompts_files h m c w :
  fs (world_of (after_prompts env h m c w)) =
  <[compose_path := compose_file_content h m c]> (fs w).
Proof.
  unfold after_prompts. rewrite bind_unfold.
  pose proof (deploy_fs env h m c w) as Hd.
  destruct (install_thingsboard_docker_compose env h m c w) as [? w1|? ?|? ?];
    cbn [world_of] in Hd; [| exact Hd ..].
  rewrite <- Hd.
  apply (pres_bind _ same_files_trans (configure_firewall env h m c)
           (λ _, verify_installation env;;
                 send_notification env "admin@example.com" true)).
  - apply sf_configure_firewall.
  - intros _. apply (pres_bind _ same_files_trans);
      [apply sf_verify_installation | intros _; apply sf_send_notification].
Qed.

(** The files after a full installation, however it ends: untouched
    (stopped before the backup), backed up (stopped at the prompts), or
    backed up and with a fresh descriptor. *)
Lemma full_installation_files w :
  let f := fs (world_of (full_installation env w)) in
  f = fs w ∨ f = backed_up (fs w) ∨
  ∃ h m c, f = <[compose_path := compose_file_content h m c]> (backed_up (fs w)).
Proof.
  cbv zeta. rewrite full_installation_around_prompts, bind_unfold.
  pose proof (before_prompts_files w) as Hb.
  destruct (before_prompts env w) as [? w1|? ?|? ?]; [| left; exact Hb ..].
  rewrite bind_unfold.
  pose proof (sf_get_user_config w1) as Hg. unfold same_files in Hg.
  destruct (get_user_config w1) as [[[h m] c] w2|? ?|? ?]; cbn [world_of] in Hg.
  - right. right. exists h, m, c. rewrite after_prompts_files. congruence.
  - right. left. cbn. congruence.
  - right. left. cbn. congruence.
Qed.

End AfterInstallation.

(** X10: a full installation sends mail only as its last step.  A run
    that does not reach its end sends nothing (no failure notice ever
    leaves); a run that does sends at most one message, the SUCCESS notice
    to admin@example.com, and exactly one when the mail server accepts
    it. *)
Theorem installation_mails_only_at_its_end (env : Env) (w : World) :
  let r := full_installation env w in
  outbox (world_of r) = outbox w ++
    (if returned r && delivered env "admin@example.com" true
     then [("noreply@example.com", ["admin@example.com"],
            as_string (status_message "admin@example.com" true))]
     else []) ∧
  payload (status_message "admin@example.com" true) =
    "The ThingsBoard installation completed with status: SUCCESS".
Proof. split; [apply full_installation_outbox | reflexivity]. Qed.

(** X12: a full installation never loses the descriptor it found.
    However the run ends, the text that was at the descriptor path is
    afterwards still there or at the backup path; and when there was no
    descriptor, the backup path is left as it was. *)
Theorem installation_keeps_prior_descriptor (env : Env) (w : World) :
  let w' := world_of (full_installation env w) in
  (∀ content, fs w !! compose_path = Some content →
     fs w' !! compose_path = Some content ∨ fs w' !! backup_path = Some content) ∧
  (fs w !! compose_path = None → fs w' !! backup_path = fs w !! backup_path).
Proof.
  cbv zeta. pose proof (full_installation_files env w) as H. cbv zeta in H.
  split.
  - intros content Hc.
    destruct H as [-> | [-> | (h & m & c & ->)]]; [left; exact Hc | right ..];
      unfold backed_up; rewrite Hc.
    + apply lookup_insert_eq.
    + rewrite lookup_insert_ne by apply compose_ne_backup. apply lookup_insert_eq.
  - intros Hn.
    destruct H as [-> | [-> | (h & m & c & ->)]]; [reflexivity | ..];
      unfold backed_up; rewrite Hn; [reflexivity |].
    apply lookup_insert_ne, compose_ne_backup.
Qed.

Lemma installation_keeps_prior_descriptor_witness :
  let w' := world_of (full_installation ufw_fails_env old_descriptor_world) in
  fs old_descriptor_world !! compose_path = Some "version: '2'" ∧
  (fs w' !! compose_path = Some "version: '2'" ∨
   fs w' !! backup_path = Some "version: '2'").
Proof.
  split; [reflexivity |].
  destruct (installation_keeps_prior_descriptor ufw_fails_env old_descriptor_world)
    as (T & _).
  exact (T "version: '2'" eq_refl).
Defined.

(** X13: two installations in a row.  When both run to their end, the
    backup path holds the descriptor the first one rendered, the
    descriptor path the one the second rendered, and each has read its
    own three answers. *)
Theorem second_installation_backs_up_the_first (env : Env) (w w1 w2 : World)
    (a b c a' b' c' : string) (rest : list string) (r1 r2 : unit) :
  full_installation env (set_stdin (a :: b :: c :: a' :: b' :: c' :: rest) w) =
    Returned r1 w1 →
  full_installation env w1 = Returned r2 w2 →
  fs w2 !! backup_path =
    Some (compose_file_content (or_default a "8080") (or_default b "1883")
                               (or_default c "5683")) ∧
  fs w2 !! compose_path =
    Some (compose_file_content (or_default a' "8080") (or_default b' "1883")
                               (or_default c' "5683")) ∧
  stdin w2 = rest.
Proof.
  intros H1 H2. apply full_installation_returned in H1. cbv zeta in H1.
  destruct H1 as (F1 & I1 & _).
  rewrite <- (set_stdin_same w1), I1 in H2.
  apply full_installation_returned in H2. cbv zeta in H2.
  destruct H2 as (F2 & I2 & _). split; [| split; [| exact I2]].
  - rewrite F2, lookup_insert_ne by apply compose_ne_backup.
    unfold backed_up. rewrite F1, lookup_insert_eq. apply lookup_insert_eq.
  - rewrite F2. apply lookup_insert_eq.
Qed.

Lemma second_installation_backs_up_the_first_witness :
  let w1 := world_of (full_installation good_env
                        (set_stdin ["9090"; ""; ""; ""; "11883"; ""] empty_world)) in
  let w2 := world_of (full_installation good_env w1) in
  fs w2 !! backup_path = Some (compose_file_content "9090" "1883" "5683") ∧
  fs w2 !! compose_path = Some (compose_file_content "8080" "11883" "5683") ∧
  stdin w2 = [].
Proof.
  cbv zeta.
  assert (H1 : full_installation good_env
                 (set_stdin ["9090"; ""; ""; ""; "11883"; ""] empty_world) =
               Returned tt (world_of (full_installation good_env
                 (set_stdin ["9090"; ""; ""; ""; "11883"; ""] empty_world))))
    by (vm_compute; reflexivity).
  assert (H2 : full_installation good_env (world_of (full_installation good_env
                 (set_stdin ["9090"; ""; ""; ""; "11883"; ""] empty_world))) =
               Returned tt (world_of (full_installation good_env
                 (world_of (full_installation good_env
                   (set_stdin ["9090"; ""; ""; ""; "11883"; ""] empty_world))))))
    by (vm_compute; reflexivity).
  exact (second_installation_backs_up_the_first good_env empty_world _ _
           "9090" "" "" "" "11883" "" [] tt tt H1 H2).
Defined.

(** ** The access address in the log *)

Section AccessRecord.

Variable env : Env.

Lemma verify_installation_log w a w' :
  verify_installation env w = Returned a w' →
  log w' = log w ++ [(INFO, "Checking running containers"); access_record].
Proof.
  unfold verify_installation. intros H.
  apply bind_returned_inv in H as ([] & w1 & H1 & H).
  rewrite run_command_cases in H1. cbv zeta in H1. case_decide as Hc.
  - injection H1 as <-.
    unfold logger_info, logger in H. injection H as H. subst w'. world_simpl.
    rewrite <- app_assoc. reflexivity.
  - destruct (decode _); discriminate.
Qed.

Lemma provisioning_log w a w' :
  provisioning env w = Returned a w' → ∃ l, log w' = l ++ [access_record].
Proof.
  unfold provisioning. intros H.
  apply bind_returned_inv in H as (? & w1 & _ & H).
  apply bind_returned_inv in H as (? & w2 & _ & H).
  apply bind_returned_inv in H as (? & w3 & _ & H).
  apply bind_returned_inv in H as (? & w4 & _ & H).
  apply bind_returned_inv in H as ([[h m] c] & w5 & _ & H).
  apply bind_returned_inv in H as (? & w6 & _ & H).
  apply bind_returned_inv in H as (? & w7 & _ & H).
  apply verify_installation_log in H. rewrite H.
  exists (log w7 ++ [(INFO, "Checking running containers")]).
  rewrite <- app_assoc. reflexivity.
Qed.

End AccessRecord.

(** X8: the address logged after verification always names port 8080.
    In every full installation that runs to its end, whatever HTTP port
    was typed at the prompt, the record before the last in the log is
    "ThingsBoard should now be accessible via http://<your-ip>:8080". *)
Theorem access_record_names_port_8080 (env : Env) (w w' : World) (r : unit) :
  full_installation env w = Returned r w' →
  ∃ l n, log w' = l ++ [access_record; n].
Proof.
  rewrite full_installation_split, bind_unfold. intros H.
  destruct (provisioning env w) as [[] w1|? ?|? ?] eqn:E; try discriminate.
  apply provisioning_log in E as (l & El).
  destruct (send_notification_returns env "admin@example.com" true w1)
    as (w2 & E2 & _ & _ & _ & _ & [(L & _) | (text & L)]);
    rewrite E2 in H; injection H as _ <-; rewrite L, El, <- app_assoc; eauto.
Qed.

Lemma access_record_names_port_8080_witness :
  let r := full_installation good_env (set_stdin ["9090"; ""; ""] empty_world) in
  fs (world_of r) !! compose_path = Some (compose_file_content "9090" "1883" "5683") ∧
  ∃ l n, log (world_of r) = l ++ [access_record; n].
Proof.
  cbv zeta. split; [vm_compute; reflexivity |].
  assert (H : full_installation good_env (set_stdin ["9090"; ""; ""] empty_world) =
              Returned tt (world_of (full_installation good_env
                                       (set_stdin ["9090"; ""; ""] empty_world))))
    by (vm_compute; reflexivity).
  exact (access_record_names_port_8080 good_env _ _ tt H).
Defined.

(** ** The order of the commands *)

Lemma follows_bind {A B} p q (m : M A) (k : A → M B) :
  follows p m → (∀ a, follows q (k a)) → follows (p ++ q) (m ≫= k).
Proof.
  intros Hm Hk w. rewrite bind_unfold. destruct (Hm w) as (l1 & E1 & P1 & R1).
  destruct (m w) as [a w1|code w1|e w1]; cbn [world_of returned] in *.
  - destruct (Hk a w1) as (l2 & E2 & P2 & R2). exists (l1 ++ l2).
    rewrite (R1 eq_refl) in *. split; [rewrite E2, E1, app_assoc; reflexivity |].
    split; [apply prefix_app, P2 |]. intros Hr. rewrite (R2 Hr). reflexivity.
  - exists l1. split; [exact E1 |]. split; [| discriminate].
    etrans; [exact P1 | apply prefix_app_r; reflexivity].
  - exists l1. split; [exact E1 |]. split; [| discriminate].
    etrans; [exact P1 | apply prefix_app_r; reflexivity].
Qed.

Lemma follows_quiet {A} (m : M A) :
  (∀ w, cmds (world_of (m w)) = cmds w) → follows [] m.
Proof.
  intros H w. exists []. rewrite app_nil_r. split; [apply H |]. split; reflexivity.
Qed.

Section Order.

Variable env : Env.

Lemma follows_run_command c d : follows [c] (run_command env c d).
Proof.
  intros w. exists [c]. split; [| split; reflexivity].
  rewrite run_command_cases. cbv zeta.
  case_decide; [reflexivity |]. destruct (decode _); reflexivity.
Qed.

Lemma follows_pre_install_check :
  follows ["docker --version"] (pre_install_check env).
Proof.
  intros w. destruct (pre_install_check_returns env w) as (w' & -> & _ & _ & C).
  exists ["docker --version"]. split; [exact C | split; reflexivity].
Qed.

Lemma follows_before_prompts :
  follows ([ "docker --version" ] ++
           [ "sudo apt update && sudo apt upgrade -y" ] ++
           docker_plan (getuser env) ++ []) (before_prompts env).
Proof.
  unfold before_prompts.
  apply follows_bind; [apply follows_pre_install_check | intros _].
  apply follows_bind; [apply follows_run_command | intros _].
  apply follows_bind.
  - unfold install_docker, docker_plan.
    apply (follows_bind [_] [_; _; _]); [apply follows_run_command | intros _].
    apply (follows_bind [_] [_; _]); [apply follows_run_command | intros _].
    apply (follows_bind [_] [_]); [apply follows_run_command | intros _].
    apply follows_run_command.
  - intros _. apply follows_quiet. intros w.
    destruct (backup_returns w) as (w' & -> & _ & _ & C). cbn [world_of].
    rewrite C. apply app_nil_r.
Qed.

Lemma follows_after_prompts h m c :
  follows ([ "docker-compose up -d" ] ++ firewall_plan h m c ++
           [ "docker-compose ps" ] ++ []) (after_prompts env h m c).
Proof.
  unfold after_prompts.
  apply follows_bind.
  - unfold install_thingsboard_docker_compose.
    apply (follows_bind [] [_]); [apply follows_quiet; reflexivity | intros _].
    apply follows_run_command.
  - intros _. apply follows_bind.
    + unfold configure_firewall, firewall_plan.
      apply (follows_bind [_] [_; _; _]); [apply follows_run_command | intros _].
      apply (follows_bind [_] [_; _]); [apply follows_run_command | intros _].
      apply (follows_bind [_] [_]); [apply follows_run_command | intros _].
      apply follows_run_command.
    + intros _. apply follows_bind.
      * unfold verify_installation.
        apply (follows_bind [_] []); [apply follows_run_command | intros _].
        apply follows_quiet. reflexivity.
      * intros _. apply follows_quiet. intros w.
        destruct (send_notification_returns env "admin@example.com" true w)
          as (w' & -> & _ & C & _). exact C.
Qed.

Lemma full_installation_follows a b c rest w :
  let plan := installation_plan (getuser env) (or_default a "8080")
                (or_default b "1883") (or_default c "5683") in
  let r := full_installation env (set_stdin (a :: b :: c :: rest) w) in
  ∃ l, cmds (world_of r) = cmds w ++ l ∧ l `prefix_of` plan ∧
       (returned r = true → l = plan).
Proof.
  cbv zeta. rewrite full_installation_around_prompts, bind_unfold, is_before_prompts.
  destruct (follows_before_prompts w) as (l1 & E1 & P1 & R1).
  unfold installation_plan.
  destruct (before_prompts env w) as [[] w1|code w1|e w1];
    cbn [outcome_map world_of returned] in *.
  - rewrite bind_unfold, get_user_config_reads.
    match goal with |- context [after_prompts env ?h ?m ?p ?x] =>
      destruct (follows_after_prompts h m p x) as (l2 & E2 & P2 & R2) end.
    world_simpl in E2. rewrite (R1 eq_refl) in E1.
    exists (l1 ++ l2). rewrite E2, E1, (R1 eq_refl), <- !app_assoc.
    split; [reflexivity |]. cbn [app] in *. split.
    + do 6 apply prefix_cons. exact P2.
    + intros Hr. rewrite (R2 Hr). reflexivity.
  - exists l1. split; [exact E1 |]. split; [| discriminate].
    etrans; [exact P1 |]. cbn. do 6 apply prefix_cons. apply prefix_nil.
  - exists l1. split; [exact E1 |]. split; [| discriminate].
    etrans; [exact P1 |]. cbn. do 6 apply prefix_cons. apply prefix_nil.
Qed.

(** With fewer than three lines to read, the prompts end in EOFError and
    no command has been added. *)
Lemma get_user_config_short w :
  (length (stdin w) < 3)%nat →
  ∃ w', get_user_config w = Raised EOFError w' ∧ cmds w' = cmds w.
Proof.
  unfold get_user_config. unfold_prims. mstep.
  destruct (stdin w) as [|a [|b [|c i]]]; cbn [length]; intros H;
    try lia; eexists; (split; [reflexivity | reflexivity]).
Qed.

Lemma full_installation_follows_short w :
  (length (stdin w) < 3)%nat →
  ∃ l, cmds (world_of (full_installation env w)) = cmds w ++ l ∧
       l `prefix_of` [ "docker --version";
                       "sudo apt update && sudo apt upgrade -y";
                       "sudo apt install -y docker.io";
                       "sudo systemctl start docker && sudo systemctl enable docker";
                       "sudo groupadd docker || true";
                       "sudo usermod -aG docker " +:+ getuser env ] ∧
       returned (full_installation env w) = false.
Proof.
  intros Hlen. rewrite full_installation_around_prompts, bind_unfold.
  destruct (follows_before_prompts w) as (l1 & E1 & P1 & _).
  pose proof (ignores_stdin_keeps (before_prompts env) w (is_before_prompts env)) as Hs.
  destruct (before_prompts env w) as [[] w1|code w1|e w1]; cbn [world_of] in *.
  - rewrite bind_unfold.
    destruct (get_user_config_short w1) as (w2 & -> & C2); [rewrite Hs; exact Hlen |].
    exists l1. cbn [world_of returned]. rewrite C2. repeat split; assumption.
  - exists l1. repeat split; assumption.
  - exists l1. repeat split; assumption.
Qed.

Lemma full_installation_follows_any w :
  let answer i := default "" (stdin w !! i) in
  let plan := installation_plan (getuser env) (or_default (answer 0%nat) "8080")
                (or_default (answer 1%nat) "1883") (or_default (answer 2%nat) "5683") in
  let r := full_installation env w in
  ∃ l, cmds (world_of r) = cmds w ++ l ∧ l `prefix_of` plan ∧
       (returned r = true → l = plan) ∧
       ((length (stdin w) < 3)%nat → returned r = false ∧ (length l ≤ 6)%nat).
Proof.
  cbv zeta. destruct (decide (length (stdin w) < 3)%nat) as [Hlen|Hlen].
  - destruct (full_installation_follows_short w Hlen) as (l & E & P & R).
    exists l. split; [exact E |]. split; [| split].
    + etrans; [exact P |]. unfold installation_plan. cbn [app].
      do 6 apply prefix_cons. apply prefix_nil.
    + rewrite R. discriminate.
    + intros _. split; [exact R |]. apply prefix_length in P. exact P.
  - destruct (stdin w) as [|a [|b [|c rest]]] eqn:Es; cbn [length] in Hlen; try lia.
    pose proof (full_installation_follows a b c rest w) as H. cbv zeta in H.
    rewrite <- Es, set_stdin_same in H. destruct H as (l & E & P & R).
    exists l. cbn [lookup list_lookup default].
    split; [exact E |]. split; [exact P |]. split; [exact R |].
    intros Hl. cbn [length] in Hl. lia.
Qed.

End Order.

(** X17: a full installation never issues a command outside its plan,
    nor out of order.  On any standard input and however the run ends,
    the commands it has issued are the first ones of: the Docker probe,
    update, the four Docker commands, [docker-compose up], the three allow
    rules and the enable for the ports typed on the first three lines
    (blank or missing lines standing for the defaults), [docker-compose
    ps]; and they are all of them when it runs to its end.  With fewer
    than three lines to read the run does not reach its end, and stops
    within the first six commands. *)
Theorem installation_follows_its_plan (env : Env) (w : World) :
  let answer i := default "" (stdin w !! i) in
  let plan := installation_plan (getuser env) (or_default (answer 0%nat) "8080")
                (or_default (answer 1%nat) "1883") (or_default (answer 2%nat) "5683") in
  let r := full_installation env w in
  ∃ l, cmds (world_of r) = cmds w ++ l ∧ l `prefix_of` plan ∧
       (returned r = true → l = plan) ∧
       ((length (stdin w) < 3)%nat → returned r = false ∧ (length l ≤ 6)%nat).
Proof. apply full_installation_follows_any. Qed.

Lemma installation_follows_its_plan_witness :
  let r := full_installation good_env (set_stdin ["9090"; ""; ""] empty_world) in
  let r' := full_installation good_env (set_stdin ["9090"; ""] empty_world) in
  returned r = true ∧
  cmds (world_of r) = installation_plan "ubuntu" "9090" "1883" "5683" ∧
  returned r' = false ∧
  cmds (world_of r') `prefix_of` installation_plan "ubuntu" "9090" "1883" "5683".
Proof.
  assert (H : returned (full_installation good_env
                          (set_stdin ["9090"; ""; ""] empty_world)) = true)
    by (vm_compute; reflexivity).
  split; [exact H |].
  destruct (installation_follows_its_plan good_env (set_stdin ["9090"; ""; ""] empty_world))
    as (l & E & _ & T & _).
  destruct (installation_follows_its_plan good_env (set_stdin ["9090"; ""] empty_world))
    as (l' & E' & P' & _ & T').
  cbv zeta in *. split; [rewrite E, (T H); reflexivity |].
  split; [apply T'; cbn; lia |]. rewrite E'. exact P'.
Defined.

(** ** Sessions at the menu *)






Section Sessions.

Variable env : Env.




(** The outcome does not depend on the bound, once it is large enough. *)
Lemma main_menu_loop_more_fuel fuel w r :
  main_menu_loop env fuel w = Some r → main_menu_loop env (S fuel) w = Some r.
Proof.
  revert w. induction fuel as [|fuel IH]; intros w; [discriminate |].
  intros H. cbn [main_menu_loop] in H. cbn [main_menu_loop].
  destruct (menu_prompt env w) as [choice w1|? ?|? ?]; [| exact H ..].
  assert (Hagain : ∀ o : outcome unit,
            match o with
            | Returned _ w2 => main_menu_loop env fuel w2
            | Exited c w2 => Some (Exited c w2)
            | Raised e w2 => Some (Raised e w2)
            end = Some r →
            match o with
            | Returned _ w2 => main_menu_loop env (S fuel) w2
            | Exited c w2 => Some (Exited c w2)
            | Raised e w2 => Some (Raised e w2)
            end = Some r).
  { intros [? w2|? ?|? ?] Ho; [apply IH, Ho | exact Ho ..]. }
  repeat case_decide; first [apply Hagain, H | exact H].
Qed.

Lemma main_menu_loop_enough_fuel fuel w :
  (length (stdin w) < fuel)%nat → main_menu_loop env fuel w = main_menu env w.
Proof.
  intros Hlen. destruct (main_menu_runs env w) as [r Hr]. rewrite Hr.
  unfold main_menu in Hr.
  induction Hlen as [|fuel Hle IH]; [exact Hr |]. apply main_menu_loop_more_fuel, IH.
Qed.

End Sessions.

(** X14: a session at the menu always ends.  On any standard input the
    loop reaches an outcome within one turn per line plus one, and a
    larger bound gives the same outcome. *)
Theorem menu_session_ends (env : Env) (w : World) :
  ∃ r, main_menu env w = Some r ∧
       ∀ fuel, (length (stdin w) < fuel)%nat → main_menu_loop env fuel w = Some r.
Proof.
  destruct (main_menu_runs env w) as [r Hr]. exists r. split; [exact Hr |].
  intros fuel Hlen. rewrite main_menu_loop_enough_fuel by assumption. exact Hr.
Qed.

Lemma menu_session_ends_witness :
  ∃ r, main_menu good_env (set_stdin ["9"; "5"; "1"] empty_world) = Some r ∧
       main_menu_loop good_env 100 (set_stdin ["9"; "5"; "1"] empty_world) = Some r.
Proof.
  destruct (menu_session_ends good_env (set_stdin ["9"; "5"; "1"] empty_world))
    as (r & E & T).
  exists r. split; [exact E |]. apply T. cbn. lia.
Defined.



(** The three ways out that are not a return, each on a concrete host:
    end of input; a failed command; a failed command with a Latin-1
    stderr. *)
Example menu_ways_out :
  (∃ w', main_menu good_env (set_stdin ["2"; "7"] empty_world) = Some (Raised EOFError w')) ∧
  (∃ w', main_menu bad_env (set_stdin ["3"; "5"] empty_world) = Some (Exited 1 w')) ∧
  (∃ w', main_menu latin1_env (set_stdin ["3"; "5"] empty_world) =
         Some (Raised (UnicodeDecodeError latin1_stderr) w')).
Proof. repeat split; eexists; vm_compute; reflexivity. Qed.

(** ** Stopping at the first failure *)


(** ** The backup step, twice *)

(** X16: after the backup step the descriptor path is free, whatever was
    there before, and the step run again changes nothing at all. *)
Theorem backup_is_idempotent (w : World) :
  let w1 := world_of (backup_existing_compose_file w) in
  fs w1 !! compose_path = None ∧
  backup_existing_compose_file w1 = Returned tt w1.
Proof.
  cbv zeta.
  assert (H : fs (world_of (backup_existing_compose_file w)) !! compose_path = None).
  { destruct (fs w !! compose_path) as [content|] eqn:E.
    - rewrite (backup_present w content E). world_simpl.
      rewrite lookup_insert_ne by (symmetry; apply compose_ne_backup).
      apply lookup_delete_eq.
    - rewrite (backup_absent w E). exact E. }
  split; [exact H | apply backup_absent, H].
Qed.

(** ** A session: install, then open the firewall from the menu *)

Section InstallThenFirewall.

Variable env : Env.

Hypothesis commands_succeed : ∀ hist c, returncode (shell env hist c) = 0.





End InstallThenFirewall.


